(** * Penny Stock Picker: the authenticated API client

    A shallow embedding of [frontend/src/api/client.ts]: the axios instance
    [apiClient], its request interceptor (bearer-token injection) and its
    response interceptor (one-shot refresh and retry on HTTP 401).

    The client is effectful: it reads and writes the zustand auth store,
    assigns [window.location.href] and talks to the backend.  Those effects
    are threaded through an explicit state [Sys] by a small state monad, and
    every dispatch to the network, store update and navigation is appended
    to a trace so that "exactly one refresh call" and similar statements
    can be read off a run.

    On top of the client come its callers: the api modules (api/auth.ts,
    api/stocks.ts, api/settings.ts), the submit handlers of the login
    and registration pages, the pagination of the dashboard and the
    signal helpers of lib/utils.ts. *)

From stdpp Require Import base strings gmap list.
From Stdlib Require Import ZArith Ascii.

Local Open Scope string_scope.
Local Open Scope list_scope.

(** ** JavaScript values the client handles *)

(** A token is [string | null | undefined]; [None] stands for the two
    absent cases.  [truthy] is JavaScript's boolean coercion on it. *)
Definition truthy (v : option string) : bool :=
  match v with
  | Some s => negb (String.eqb s "")
  | None => false
  end.

(** A template-literal hole [${v}]: an absent value prints as
    [undefined]. *)
Definition interpolate (v : option string) : string :=
  default "undefined" v.

(** [`Bearer ${v}`] *)
Definition bearer (v : option string) : string :=
  "Bearer " +:+ interpolate v.

(** ** The auth store ([@/store/authSlice]) *)

Record AuthState := mkAuthState {
  accessToken : option string;
  refreshToken : option string
}.

(** Modelled from the spec: the store module [@/store/authSlice] is not
    among the sources.  [setTokens] stores the new access and refresh
    tokens, "a single indivisible assignment of both fields together". *)
Definition setTokens (access refresh : option string) (_ : AuthState) : AuthState :=
  {| accessToken := access; refreshToken := refresh |}.

(** Modelled from the spec: the store module [@/store/authSlice] is not
    among the sources.  [logout] "clears the credential pair". *)
Definition logout (_ : AuthState) : AuthState :=
  {| accessToken := None; refreshToken := None |}.

(** ** Requests, responses and errors (axios) *)

(** [InternalAxiosRequestConfig & { _retry?: boolean }].  An unset
    [_retry] is [undefined], which the client only tests for truth. *)
Record Config := mkConfig {
  baseURL : option string;
  url : string;
  method : string;
  headers : option (gmap string string);
  params : gmap string string;
  req_data : option string;
  _retry : bool
}.

Definition set_retry (c : Config) : Config :=
  {| baseURL := baseURL c; url := url c; method := method c;
     headers := headers c; params := params c; req_data := req_data c;
     _retry := true |}.

Definition set_headers (h : option (gmap string string)) (c : Config) : Config :=
  {| baseURL := baseURL c; url := url c; method := method c;
     headers := h; params := params c; req_data := req_data c;
     _retry := _retry c |}.

(** [c.headers.Authorization = v], under the guard [if (c.headers)]
    that both interceptors put around it. *)
Definition set_Authorization (v : string) (c : Config) : Config :=
  match headers c with
  | Some h => set_headers (Some (<["Authorization" := v]> h)) c
  | None => c
  end.

Definition Authorization (c : Config) : option string :=
  h ← headers c; h !! "Authorization".

(** A response body is JSON: [None] is an empty ([null]) body, [Some o] an
    object whose fields are read by name, [undefined] when missing. *)
Record Response := mkResponse {
  status : Z;
  data : option (gmap string string)
}.

(** [AxiosError]: [response] is absent for a network or transport error. *)
Record AxiosError := mkAxiosError {
  config : Config;
  response : option Response
}.

(** How a promise returned by axios settles. *)
Inductive Outcome :=
| Fulfilled (r : Response)
| Rejected (e : AxiosError).

(** What the transport hands back for one request. *)
Inductive NetResult :=
| Replied (r : Response)
| NetworkError.

(** axios' default [validateStatus]. *)
Definition validateStatus (s : Z) : bool :=
  ((200 <=? s) && (s <? 300))%Z.

(** [settle]: a reply outside 2xx rejects with an error carrying it. *)
Definition settle (c : Config) (r : NetResult) : Outcome :=
  match r with
  | Replied resp =>
      if validateStatus (status resp) then Fulfilled resp
      else Rejected {| config := c; response := Some resp |}
  | NetworkError => Rejected {| config := c; response := None |}
  end.

(** ** Effects *)

Inductive Instance := ViaApiClient | ViaAxios.

(** One entry per observable effect.  [Dispatched] records the store as
    it is at send time next to the request handed to the transport. *)
Inductive Event :=
| Dispatched (via : Instance) (at_send : AuthState) (sent : Config)
| StoreSet (now : AuthState)
| Navigated (to : string).

Section Client.

(** The backend is any deterministic transport: a state [B] and a step
    that answers one request. *)
Variable B : Type.
Variable adapter : B → Config → B * NetResult.

(** [import.meta.env.VITE_API_URL] *)
Variable VITE_API_URL : option string.

Record Sys := mkSys {
  store : AuthState;
  href : string;
  backend : B;
  trace : list Event
}.

Definition Eff (A : Type) : Type := Sys → A * Sys.

#[local] Instance Eff_ret : MRet Eff := λ A a s, (a, s).

#[local] Instance Eff_bind : MBind Eff :=
  λ A C k m s, let '(a, s') := m s in k a s'.

Definition emit (e : Event) (s : Sys) : Sys :=
  {| store := store s; href := href s; backend := backend s;
     trace := trace s ++ [e] |}.

(** [useAuthStore.getState()] *)
Definition getState : Eff AuthState := λ s, (store s, s).

(** A store action: applies [f] to the store in one step. *)
Definition update_store (f : AuthState → AuthState) : Eff unit :=
  λ s, let st := f (store s) in
       (tt, emit (StoreSet st)
              {| store := st; href := href s; backend := backend s;
                 trace := trace s |}).

(** [window.location.href = to] *)
Definition navigate (to : string) : Eff unit :=
  λ s, (tt, emit (Navigated to)
              {| store := store s; href := to; backend := backend s;
                 trace := trace s |}).

(** [dispatchRequest]: hand the request to the transport and settle. *)
Definition dispatchRequest (via : Instance) (c : Config) : Eff Outcome :=
  λ s, let '(b, r) := adapter (backend s) c in
       (settle c r,
        emit (Dispatched via (store s) c)
          {| store := store s; href := href s; backend := b;
             trace := trace s |}).

(** ** client.ts *)

(** [const API_URL = import.meta.env.VITE_API_URL || '/api/v1'] *)
Definition API_URL : string :=
  if truthy VITE_API_URL then interpolate VITE_API_URL else "/api/v1".

(** Default headers of the bare [axios] instance. *)
Definition axios_headers : gmap string string :=
  {[ "Accept" := "application/json, text/plain, */*" ]}.

(** [axios.create({ baseURL: API_URL, headers: { 'Content-Type': ... } })] *)
Definition apiClient_headers : gmap string string :=
  <["Content-Type" := "application/json"]> axios_headers.

(** [mergeConfig(this.defaults, config)] followed by the flattening of
    headers in [Axios.request]: the request's own headers win, and the
    result always has a headers object.  Unknown keys such as [_retry]
    are carried over. *)
Definition mergeConfig (c : Config) : Config :=
  {| baseURL := Some API_URL; url := url c; method := method c;
     headers := Some (default ∅ (headers c) ∪ apiClient_headers);
     params := params c; req_data := req_data c; _retry := _retry c |}.

(** [axios.post(url, data, { params })] on the bare instance: no
    interceptor is registered there. *)
Definition axios_post (u : string) (d : option string)
    (p : gmap string string) : Eff Outcome :=
  dispatchRequest ViaAxios
    {| baseURL := None; url := u; method := "post";
       headers := Some axios_headers; params := p; req_data := d;
       _retry := false |}.

(** Request interceptor (client.ts 14-23). *)
Definition request_interceptor (config : Config) : Eff Config :=
  st ← getState;
  if truthy (accessToken st) && bool_decide (is_Some (headers config))
  then mret (set_Authorization (bearer (accessToken st)) config)
  else mret config.

(** [error.response?.status === 401] *)
Definition status_is_401 (r : option Response) : bool :=
  match r with
  | Some resp => (status resp =? 401)%Z
  | None => false
  end.

(** Response interceptor, rejected branch (client.ts 28-65).  [retry] is
    the call [apiClient(originalRequest)] of line 52.  [_retry = true]
    is written to the very object [error.config] points to, so the
    rejected [error] shows it. *)
Definition response_rejected (retry : Config → Eff (option Outcome))
    (error : AxiosError) : Eff (option Outcome) :=
  let originalRequest := config error in
  if status_is_401 (response error) && negb (_retry originalRequest) then
    let originalRequest := set_retry originalRequest in
    let error := {| config := originalRequest; response := response error |} in
    st ← getState;
    if truthy (refreshToken st) then
      r ← axios_post (API_URL +:+ "/auth/refresh") None
            {[ "refresh_token" := interpolate (refreshToken st) ]};
      match r with
      | Fulfilled response =>
          match data response with
          | Some body =>
              let access_token := body !! "access_token" in
              let refresh_token := body !! "refresh_token" in
              update_store (setTokens access_token refresh_token);;
              retry (set_Authorization (bearer access_token) originalRequest)
          | None =>
              (* destructuring a null body throws: caught *)
              update_store logout;;
              navigate "/login";;
              mret (Some (Rejected error))
          end
      | Rejected _ =>
          update_store logout;;
          navigate "/login";;
          mret (Some (Rejected error))
      end
    else
      update_store logout;;
      navigate "/login";;
      mret (Some (Rejected error))
  else mret (Some (Rejected error)).

(** [apiClient(config)]: merge the defaults, run the request interceptor,
    dispatch, then run the response interceptor.  The rejected branch
    calls [apiClient] again; [fuel] bounds that nesting and [None] means
    it ran out. *)
Fixpoint apiClient (fuel : nat) (config : Config) : Eff (option Outcome) :=
  match fuel with
  | O => mret None
  | S fuel' =>
      c ← request_interceptor (mergeConfig config);
      r ← dispatchRequest ViaApiClient c;
      match r with
      | Fulfilled response => mret (Some (Fulfilled response))
      | Rejected error => response_rejected (apiClient fuel') error
      end
  end.

(** ** Reading a run *)

(** What the request interceptor makes of [config] when the store is
    [st]. *)
Definition authorize (st : AuthState) (config : Config) : Config :=
  if truthy (accessToken st) && bool_decide (is_Some (headers config))
  then set_Authorization (bearer (accessToken st)) config
  else config.

(** The request [apiClient(c)] hands to the transport when the store is
    [st] at send time. *)
Definition wire (st : AuthState) (c : Config) : Config :=
  authorize st (mergeConfig c).

(** The request of lines 41-43 for refresh token [rt]. *)
Definition refresh_request (rt : option string) : Config :=
  {| baseURL := None; url := API_URL +:+ "/auth/refresh"; method := "post";
     headers := Some axios_headers;
     params := {[ "refresh_token" := interpolate rt ]};
     req_data := None; _retry := false |}.

(** The request line 52 passes to [apiClient] after a refresh that
    returned [access_token], for the failed request [sent]. *)
Definition retry_request (access_token : option string) (sent : Config) : Config :=
  set_Authorization (bearer access_token) (set_retry sent).

(** The error the caller sees on the logout paths: the original error,
    whose [config] now shows [_retry]. *)
Definition marked (error : AxiosError) : AxiosError :=
  {| config := set_retry (config error); response := response error |}.

(** A 401 on a request that was not retried yet. *)
Definition fresh_401 (error : AxiosError) : bool :=
  status_is_401 (response error) && negb (_retry (config error)).

(** The store and location after [logout()] and the redirect. *)
Definition logged_out (s : Sys) : Sys :=
  {| store := logout (store s); href := "/login"; backend := backend s;
     trace := trace s ++ [StoreSet (logout (store s)); Navigated "/login"] |}.

(** The store after [setTokens(access, refresh)]. *)
Definition refreshed (access refresh : option string) (s : Sys) : Sys :=
  {| store := setTokens access refresh (store s); href := href s;
     backend := backend s;
     trace := trace s ++ [StoreSet (setTokens access refresh (store s))] |}.

(** The state right after [c] went out through [via]. *)
Definition sent_from (via : Instance) (c : Config) (s : Sys) : Sys :=
  (dispatchRequest via c s).2.

(** Line 34 as a test on how the dispatch settled. *)
Definition needs_refresh (o : Outcome) : bool :=
  match o with
  | Rejected e => fresh_401 e
  | Fulfilled _ => false
  end.

(** How [sent] settles against the backend of [s]. *)
Definition settled (sent : Config) (s : Sys) : Outcome :=
  settle sent (adapter (backend s) sent).2.

(** The four ways a call [apiClient(c)] from state [s] can go: what the
    caller gets and the state it leaves. *)
Inductive Run (c : Config) (s : Sys) : Outcome → Sys → Prop :=
| Run_settled sent :
    sent = wire (store s) c →
    needs_refresh (settled sent s) = false →
    Run c s (settled sent s) (sent_from ViaApiClient sent s)
| Run_no_refresh_token sent e :
    sent = wire (store s) c →
    settled sent s = Rejected e →
    fresh_401 e = true →
    truthy (refreshToken (store s)) = false →
    Run c s (Rejected (marked e)) (logged_out (sent_from ViaApiClient sent s))
| Run_refresh_failed sent e s1 rq :
    sent = wire (store s) c →
    settled sent s = Rejected e →
    fresh_401 e = true →
    truthy (refreshToken (store s)) = true →
    s1 = sent_from ViaApiClient sent s →
    rq = refresh_request (refreshToken (store s)) →
    (∀ r, settled rq s1 = Fulfilled r → data r = None) →
    Run c s (Rejected (marked e)) (logged_out (sent_from ViaAxios rq s1))
| Run_retried sent e s1 rq r body s2 again :
    sent = wire (store s) c →
    settled sent s = Rejected e →
    fresh_401 e = true →
    truthy (refreshToken (store s)) = true →
    s1 = sent_from ViaApiClient sent s →
    rq = refresh_request (refreshToken (store s)) →
    settled rq s1 = Fulfilled r →
    data r = Some body →
    s2 = refreshed (body !! "access_token") (body !! "refresh_token")
           (sent_from ViaAxios rq s1) →
    again = wire (store s2) (retry_request (body !! "access_token") sent) →
    Run c s (settled again s2) (sent_from ViaApiClient again s2).

(** Two configs describe the same call: same URL, method, query
    parameters and body. *)
Definition same_call (a b : Config) : Prop :=
  url a = url b ∧ method a = method b ∧ params a = params b ∧
  req_data a = req_data b.

(** The store value an event shows to an observer, if any. *)
Definition observed_store (e : Event) : option AuthState :=
  match e with
  | Dispatched _ st _ => Some st
  | StoreSet st => Some st
  | Navigated _ => None
  end.

(** The response a transport result carries, if any. *)
Definition reply_response (r : NetResult) : option Response :=
  match r with
  | Replied resp => Some resp
  | NetworkError => None
  end.

(** The events a run added to the trace. *)
Definition events_since (s s' : Sys) : list Event :=
  drop (length (trace s)) (trace s').

Definition is_refresh_call (e : Event) : bool :=
  match e with
  | Dispatched ViaAxios _ _ => true
  | _ => false
  end.

Definition is_apiClient_send (e : Event) : bool :=
  match e with
  | Dispatched ViaApiClient _ _ => true
  | _ => false
  end.

Definition is_store_update (e : Event) : bool :=
  match e with
  | StoreSet _ => true
  | _ => false
  end.

Definition is_navigation (e : Event) : bool :=
  match e with
  | Navigated _ => true
  | _ => false
  end.

Definition count (p : Event → bool) (t : list Event) : nat :=
  length (List.filter p t).

End Client.

Arguments store {B} _.
Arguments href {B} _.
Arguments backend {B} _.
Arguments trace {B} _.
Arguments mkSys {B} _ _ _ _.
Arguments emit {B} _ _.
Arguments getState {B}.
Arguments update_store {B} _.
Arguments navigate {B} _.
Arguments dispatchRequest {B} _ _ _.
Arguments axios_post {B} _ _ _ _.
Arguments request_interceptor {B} _.
Arguments response_rejected {B} _ _ _ _.
Arguments apiClient {B} _ _ _ _.
Arguments logged_out {B} _.
Arguments events_since {B} _ _.
Arguments settled {B} _ _ _.
Arguments Run {B} _ _ _ _ _ _.
Arguments refreshed {B} _ _ _.
Arguments sent_from {B} _ _ _ _.

(** ** A scripted backend

    For concrete runs: the backend answers the requests it receives with
    the replies of a list, in order, and with a network error once the
    list is used up. *)

Definition scripted (b : list NetResult) (_ : Config) : list NetResult * NetResult :=
  match b with
  | [] => ([], NetworkError)
  | r :: b' => (b', r)
  end.

(** [apiClient.get(u)] as the api modules call it. *)
Definition get (u : string) : Config :=
  {| baseURL := None; url := u; method := "get"; headers := None;
     params := ∅; req_data := None; _retry := false |}.

Definition signed_in : AuthState :=
  {| accessToken := Some "A1"; refreshToken := Some "R1" |}.

Definition session (st : AuthState) (b : list NetResult) : Sys (list NetResult) :=
  {| store := st; href := "/"; backend := b; trace := [] |}.

Definition unauthorized : Response := {| status := 401; data := None |}.

Definition server_error : Response := {| status := 500; data := None |}.

Definition stocks : Response :=
  {| status := 200; data := Some {[ "symbol" := "PNNY" ]} |}.

Definition new_tokens : gmap string string :=
  <["access_token" := "A2"]> {[ "refresh_token" := "R2" ]}.

Definition refresh_ok : Response := {| status := 200; data := Some new_tokens |}.

(** A 2xx refresh reply whose body lacks [access_token]. *)
Definition refresh_without_access : Response :=
  {| status := 200; data := Some {[ "refresh_token" := "R2" ]} |}.

(** ** JSON and pages for concrete runs *)

Definition hex_digit (n : N) : ascii :=
  match n with
  | 0 => "0" | 1 => "1" | 2 => "2" | 3 => "3" | 4 => "4" | 5 => "5"
  | 6 => "6" | 7 => "7" | 8 => "8" | 9 => "9" | 10 => "a" | 11 => "b"
  | 12 => "c" | 13 => "d" | 14 => "e" | _ => "f"
  end%N%char.

(** How [JSON.stringify] writes one character of a string. *)
Definition json_escape (a : ascii) : string :=
  let n := N_of_ascii a in
  if (n =? 34)%N then String "\" (String a "")
  else if (n =? 92)%N then "\\"
  else if (n =? 8)%N then "\b"
  else if (n =? 9)%N then "\t"
  else if (n =? 10)%N then "\n"
  else if (n =? 12)%N then "\f"
  else if (n =? 13)%N then "\r"
  else if (n <? 32)%N then
    "\u00" +:+ String (hex_digit (n / 16)) (String (hex_digit (n mod 16)) "")
  else String a "".

Fixpoint json_escaped (s : string) : string :=
  match s with
  | EmptyString => EmptyString
  | String a rest => json_escape a +:+ json_escaped rest
  end.

Definition json_string (s : string) : string :=
  String (ascii_of_N 34) (json_escaped s +:+ String (ascii_of_N 34) "").

(** [JSON.stringify] of an object whose properties hold strings. *)
Definition stringify (fields : list (string * string)) : string :=
  "{" +:+
  String.concat ","
    (List.map (λ kv, json_string kv.1 +:+ ":" +:+ json_string kv.2) fields)
  +:+ "}".

(** A store action for [setAuth] in concrete runs: it keeps the pair. *)
Definition keep_pair (_ : option (gmap string string))
    (access refresh : option string) (_ : AuthState) : AuthState :=
  {| accessToken := access; refreshToken := refresh |}.

Definition signed_out : AuthState :=
  {| accessToken := None; refreshToken := None |}.

Definition me : Response :=
  {| status := 200; data := Some {[ "email" := "pat@example.com" ]} |}.

Definition bad_credentials : Response :=
  {| status := 401;
     data := Some {[ "detail" := "Incorrect email or password" ]} |}.

(** * The callers of the client *)

(** What an [await] in a caller can throw: the error [apiClient]
    rejected with, or the [TypeError] of reading a property of [null]. *)
Inductive Thrown :=
| AxiosThrown (error : AxiosError)
| TypeError.

(** How an [async] function of the api modules ends. *)
Inductive Settled (A : Type) :=
| Resolved (a : A)
| Threw (err : Thrown).

Arguments Resolved {A} _.
Arguments Threw {A} _.

(** [err.response?.data?.detail], as the pages read it in [catch]. *)
Definition detail_of (err : Thrown) : option string :=
  match err with
  | AxiosThrown e => r ← response e; d ← data r; d !! "detail"
  | TypeError => None
  end.

(** [v || fallback] on a string that may be absent. *)
Definition or_else (v : option string) (fallback : string) : string :=
  match v with
  | Some s => if String.eqb s "" then fallback else s
  | None => fallback
  end.

(** The configs the method helpers [get(url)] and [post(url, data)] of
    an axios instance build. *)
Definition get_config (u : string) : Config :=
  {| baseURL := None; url := u; method := "get"; headers := None;
     params := ∅; req_data := None; _retry := false |}.

Definition post_config (u : string) (d : option string) : Config :=
  {| baseURL := None; url := u; method := "post"; headers := None;
     params := ∅; req_data := d; _retry := false |}.

Section Callers.

Variable B : Type.
Variable adapter : B → Config → B * NetResult.
Variable VITE_API_URL : option string.

(** [JSON.stringify] on the objects the api modules post: properties
    with string values, in insertion order. *)
Variable JSON_stringify : list (string * string) → string.

(** [apiClient.get(url)] and [apiClient.post(url, data)]: the method
    helpers of the axios instance build the config and call
    [apiClient]. *)
Definition apiClient_get (fuel : nat) (u : string) : Eff B (option Outcome) :=
  apiClient adapter VITE_API_URL fuel (get_config u).

Definition apiClient_post (fuel : nat) (u : string)
    (d : option (list (string * string))) : Eff B (option Outcome) :=
  apiClient adapter VITE_API_URL fuel (post_config u (JSON_stringify <$> d)).

(** [const response = await p; return response.data] *)
Definition response_data (p : Eff B (option Outcome)) :
    Eff B (option (Settled (option (gmap string string)))) :=
  λ s, let '(o, s') := p s in
       (match o with
        | Some (Fulfilled response) => Some (Resolved (data response))
        | Some (Rejected error) => Some (Threw (AxiosThrown error))
        | None => None
        end, s').

End Callers.

Arguments apiClient_get {B} _ _ _ _ _.
Arguments apiClient_post {B} _ _ _ _ _ _ _.
Arguments response_data {B} _ _.

(** ** api/auth.ts *)

Module auth.
Section Api.

Variable B : Type.
Variable adapter : B → Config → B * NetResult.
Variable VITE_API_URL : option string.
Variable JSON_stringify : list (string * string) → string.

Definition login (fuel : nat) (credentials : list (string * string)) :=
  response_data
    (apiClient_post adapter VITE_API_URL JSON_stringify fuel "/auth/login"
       (Some credentials)).

Definition register (fuel : nat) (data : list (string * string)) :=
  response_data
    (apiClient_post adapter VITE_API_URL JSON_stringify fuel "/auth/register"
       (Some data)).

Definition getMe (fuel : nat) :=
  response_data (apiClient_get adapter VITE_API_URL fuel "/auth/me").

(** [await apiClient.post('/auth/logout')]: resolves with nothing. *)
Definition logout (fuel : nat) : Eff B (option (Settled unit)) :=
  λ s, let '(o, s') :=
         apiClient_post adapter VITE_API_URL JSON_stringify fuel "/auth/logout"
           None s in
       (match o with
        | Some (Fulfilled _) => Some (Resolved tt)
        | Some (Rejected error) => Some (Threw (AxiosThrown error))
        | None => None
        end, s').

End Api.
End auth.

Arguments auth.login {B} _ _ _ _ _ _.
Arguments auth.register {B} _ _ _ _ _ _.
Arguments auth.getMe {B} _ _ _ _.
Arguments auth.logout {B} _ _ _ _ _.

(** ** api/stocks.ts and api/settings.ts, the calls without options *)

Module stocks.
Section Api.

Variable B : Type.
Variable adapter : B → Config → B * NetResult.
Variable VITE_API_URL : option string.

Definition getStock (fuel : nat) (symbol : string) :=
  response_data (apiClient_get adapter VITE_API_URL fuel ("/stocks/" +:+ symbol)).

Definition getTechnicalIndicators (fuel : nat) (symbol : string) :=
  response_data
    (apiClient_get adapter VITE_API_URL fuel
       ("/stocks/" +:+ symbol +:+ "/indicators")).

End Api.
End stocks.

Arguments stocks.getStock {B} _ _ _ _ _.
Arguments stocks.getTechnicalIndicators {B} _ _ _ _ _.

Module settings.
Section Api.

Variable B : Type.
Variable adapter : B → Config → B * NetResult.
Variable VITE_API_URL : option string.
Variable JSON_stringify : list (string * string) → string.

Definition getAPIKeyStatus (fuel : nat) :=
  response_data (apiClient_get adapter VITE_API_URL fuel "/settings/api-keys").

Definition testAPIKey (fuel : nat) (service : string) :=
  response_data
    (apiClient_post adapter VITE_API_URL JSON_stringify fuel
       "/settings/api-keys/test" (Some [("service", service)])).

Definition startLoadStocks (fuel : nat) :=
  response_data
    (apiClient_post adapter VITE_API_URL JSON_stringify fuel
       "/settings/load-stocks" None).

Definition getLoadStocksStatus (fuel : nat) :=
  response_data
    (apiClient_get adapter VITE_API_URL fuel "/settings/load-stocks/status").

End Api.
End settings.

Arguments settings.getAPIKeyStatus {B} _ _ _ _.
Arguments settings.testAPIKey {B} _ _ _ _ _ _.
Arguments settings.startLoadStocks {B} _ _ _ _ _.
Arguments settings.getLoadStocksStatus {B} _ _ _ _.

(** ** pages/Login.tsx *)

Module Login.

(** The component state ([useState]) and the last [navigate(to)] of
    react-router. *)
Record State := mkState {
  email : string;
  password : string;
  error : string;
  loading : bool;
  navigated : option string
}.

Section Page.

Variable B : Type.
Variable adapter : B → Config → B * NetResult.
Variable VITE_API_URL : option string.
Variable JSON_stringify : list (string * string) → string.

#[local] Existing Instances Eff_ret Eff_bind.

(** [setAuth(user, accessToken, refreshToken)] of [@/store/authSlice],
    which is not among the sources: any store action. *)
Variable setAuth :
  option (gmap string string) → option string → option string →
  AuthState → AuthState.

(** [catch]: [setError(error.response?.data?.detail || 'Login failed')],
    then [finally]: [setLoading(false)]. *)
Definition failed (err : Thrown) (page : State) : State :=
  {| email := email page; password := password page;
     error := or_else (detail_of err) "Login failed";
     loading := false; navigated := navigated page |}.

(** [handleSubmit] (Login.tsx): log in, put the tokens in the store,
    fetch the user, then [setAuth] and go to [/]. *)
Definition handleSubmit (fuel : nat) (page : State) : Eff B (option State) :=
  (* setError(''); setLoading(true) *)
  let page := {| email := email page; password := password page;
                 error := ""; loading := true;
                 navigated := navigated page |} in
  r ← auth.login adapter VITE_API_URL JSON_stringify fuel
        [("email", email page); ("password", password page)];
  match r with
  | None => mret None
  | Some (Threw err) => mret (Some (failed err page))
  | Some (Resolved None) =>
      (* tokens.access_token on a null body *)
      mret (Some (failed TypeError page))
  | Some (Resolved (Some tokens)) =>
      (* useAuthStore.setState({ accessToken, refreshToken }) *)
      update_store (λ _, {| accessToken := tokens !! "access_token";
                            refreshToken := tokens !! "refresh_token" |});;
      u ← auth.getMe adapter VITE_API_URL fuel;
      match u with
      | None => mret None
      | Some (Threw err) => mret (Some (failed err page))
      | Some (Resolved user) =>
          update_store (setAuth user (tokens !! "access_token")
                          (tokens !! "refresh_token"));;
          mret (Some {| email := email page; password := password page;
                        error := error page; loading := false;
                        navigated := Some "/" |})
      end
  end.

(** The request [login({ email, password })] posts. *)
Definition login_request (page : State) : Config :=
  post_config "/auth/login"
    (Some (JSON_stringify [("email", email page);
                           ("password", password page)])).

(** The state in which [getMe()] is called after a login that returned
    [tokens]. *)
Definition with_tokens (tokens : gmap string string) (s : Sys B) : Sys B :=
  {| store := {| accessToken := tokens !! "access_token";
                 refreshToken := tokens !! "refresh_token" |};
     href := href s; backend := backend s;
     trace := trace s ++
       [StoreSet {| accessToken := tokens !! "access_token";
                    refreshToken := tokens !! "refresh_token" |}] |}.

End Page.
End Login.

Arguments Login.handleSubmit {B} _ _ _ _ _ _ _.
Arguments Login.with_tokens {B} _ _.

(** ** pages/Register.tsx *)

Module Register.

Record State := mkState {
  email : string;
  password : string;
  confirmPassword : string;
  fullName : string;
  error : string;
  loading : bool;
  (* navigate(to, { state: { message } }) *)
  navigated : option (string * string)
}.

Definition with_error (msg : string) (page : State) : State :=
  {| email := email page; password := password page;
     confirmPassword := confirmPassword page; fullName := fullName page;
     error := msg; loading := loading page; navigated := navigated page |}.

Definition with_loading (l : bool) (page : State) : State :=
  {| email := email page; password := password page;
     confirmPassword := confirmPassword page; fullName := fullName page;
     error := error page; loading := l; navigated := navigated page |}.

Definition with_navigated (to message : string) (page : State) : State :=
  {| email := email page; password := password page;
     confirmPassword := confirmPassword page; fullName := fullName page;
     error := error page; loading := loading page;
     navigated := Some (to, message) |}.

(** The object literal of lines 32-36: [full_name: fullName || undefined]
    leaves the property out of the JSON for an empty name. *)
Definition registration (page : State) : list (string * string) :=
  [("email", email page); ("password", password page)] ++
  (if String.eqb (fullName page) "" then [] else [("full_name", fullName page)]).

Section Page.

Variable B : Type.
Variable adapter : B → Config → B * NetResult.
Variable VITE_API_URL : option string.
Variable JSON_stringify : list (string * string) → string.

#[local] Existing Instances Eff_ret Eff_bind.

(** The request [register(...)] posts for the form as it stands. *)
Definition register_request (page : State) : Config :=
  post_config "/auth/register" (Some (JSON_stringify (registration page))).

(** [handleSubmit] (Register.tsx 15-44).  [password.length] counts the
    code units of the string. *)
Definition handleSubmit (fuel : nat) (page : State) : Eff B (option State) :=
  let page := with_error "" page in
  if negb (String.eqb (password page) (confirmPassword page)) then
    mret (Some (with_error "Passwords do not match" page))
  else if (String.length (password page) <? 8)%nat then
    mret (Some (with_error "Password must be at least 8 characters" page))
  else
    let page := with_loading true page in
    r ← auth.register adapter VITE_API_URL JSON_stringify fuel
          (registration page);
    match r with
    | None => mret None
    | Some (Resolved _) =>
        mret (Some (with_loading false
                      (with_navigated "/login"
                         "Registration successful! Please sign in." page)))
    | Some (Threw err) =>
        mret (Some (with_loading false
                      (with_error (or_else (detail_of err) "Registration failed")
                         page)))
    end.

End Page.
End Register.

Arguments Register.handleSubmit {B} _ _ _ _ _ _.

(** ** pages/Dashboard.tsx: pagination

    [page], [data.pages], [data.per_page] and [data.total] are counts:
    JavaScript numbers holding integers, on which [+], [-], [*],
    [Math.min] and [Math.max] are exact as long as the values stay
    within [Number.MAX_SAFE_INTEGER]. *)

Module Dashboard.

Definition MAX_SAFE_INTEGER : Z := 2 ^ 53 - 1.

(** Previous: [setPage((p) => Math.max(1, p - 1))] *)
Definition previous (p : Z) : Z := Z.max 1 (p - 1).

(** Next: [setPage((p) => Math.min(data.pages, p + 1))] *)
Definition next (pages p : Z) : Z := Z.min pages (p + 1).

(** [disabled={page === 1}] and [disabled={page === data.pages}] *)
Definition previous_disabled (page : Z) : bool := (page =? 1)%Z.
Definition next_disabled (pages page : Z) : bool := (page =? pages)%Z.

(** "Showing [first] to [last] of [total]" *)
Definition showing_first (page per_page : Z) : Z := (page - 1) * per_page + 1.
Definition showing_last (page per_page total : Z) : Z :=
  Z.min (page * per_page) total.

End Dashboard.

(** ** lib/utils.ts: trading signals *)

(** [switch (signal)] compares with [===], case after case. *)
Definition getSignalColor (signal : option string) : string :=
  match signal with
  | Some s =>
      if String.eqb s "strong_buy" then "text-green-500"
      else if String.eqb s "buy" then "text-green-400"
      else if String.eqb s "hold" then "text-yellow-500"
      else if String.eqb s "sell" then "text-red-400"
      else if String.eqb s "strong_sell" then "text-red-500"
      else "text-gray-500"
  | None => "text-gray-500"
  end.

Definition getSignalBgColor (signal : option string) : string :=
  match signal with
  | Some s =>
      if String.eqb s "strong_buy" then "bg-green-500/10 border-green-500/20"
      else if String.eqb s "buy" then "bg-green-400/10 border-green-400/20"
      else if String.eqb s "hold" then "bg-yellow-500/10 border-yellow-500/20"
      else if String.eqb s "sell" then "bg-red-400/10 border-red-400/20"
      else if String.eqb s "strong_sell" then "bg-red-500/10 border-red-500/20"
      else "bg-gray-500/10 border-gray-500/20"
  | None => "bg-gray-500/10 border-gray-500/20"
  end.

(** Character classes of the regular expression [/\b\w/g]: [\w] is
    [[A-Za-z0-9_]]. *)
Definition is_lower (a : ascii) : bool :=
  ((97 <=? N_of_ascii a) && (N_of_ascii a <=? 122))%N.

Definition is_upper (a : ascii) : bool :=
  ((65 <=? N_of_ascii a) && (N_of_ascii a <=? 90))%N.

Definition is_digit (a : ascii) : bool :=
  ((48 <=? N_of_ascii a) && (N_of_ascii a <=? 57))%N.

Definition is_word (a : ascii) : bool :=
  is_lower a || is_upper a || is_digit a || (N_of_ascii a =? 95)%N.

(** [l.toUpperCase()] on a character matched by [\w]. *)
Definition toUpperCase (a : ascii) : ascii :=
  if is_lower a then ascii_of_N (N_of_ascii a - 32) else a.

(** [s.replace('_', ' ')]: a string pattern replaces the first
    occurrence only. *)
Fixpoint replace_first_underscore (s : string) : string :=
  match s with
  | EmptyString => EmptyString
  | String a rest =>
      if Ascii.eqb a "_"%char then String " "%char rest
      else String a (replace_first_underscore rest)
  end.

(** [s.replace(/\b\w/g, (l) => l.toUpperCase())]: a word character is
    matched when the character before it, if any, is not one.
    [after_word] tells whether the previous character was a word
    character. *)
Fixpoint capitalize_words (after_word : bool) (s : string) : string :=
  match s with
  | EmptyString => EmptyString
  | String a rest =>
      String (if is_word a && negb after_word then toUpperCase a else a)
        (capitalize_words (is_word a) rest)
  end.

Definition formatSignal (signal : option string) : string :=
  if negb (truthy signal) then "-"
  else capitalize_words false (replace_first_underscore (interpolate signal)).

(** A word with its first letter in upper case. *)
Definition capitalized (w : string) : string :=
  match w with
  | EmptyString => EmptyString
  | String a rest => String (toUpperCase a) rest
  end.

Fixpoint all_lower (w : string) : bool :=
  match w with
  | EmptyString => true
  | String a rest => is_lower a && all_lower rest
  end.

Fixpoint underscores (s : string) : nat :=
  match s with
  | EmptyString => 0
  | String a rest => (if Ascii.eqb a "_"%char then 1 else 0) + underscores rest
  end.

(** * Properties *)

Section Properties.

Context {B : Type}.
Variable adapter : B → Config → B * NetResult.
Variable VITE_API_URL : option string.

#[local] Abbreviation Sys := (Sys B).
#[local] Abbreviation apiClient := (apiClient adapter VITE_API_URL).
#[local] Abbreviation response_rejected := (response_rejected adapter VITE_API_URL).
#[local] Abbreviation dispatchRequest := (dispatchRequest adapter).
#[local] Abbreviation wire := (wire VITE_API_URL).
#[local] Abbreviation mergeConfig := (mergeConfig VITE_API_URL).
#[local] Abbreviation refresh_request := (refresh_request VITE_API_URL).
#[local] Abbreviation sent_from := (sent_from adapter).
#[local] Abbreviation settled := (settled adapter).
#[local] Abbreviation Run := (Run adapter VITE_API_URL).

(** ** Configs *)

Lemma retry_set_Authorization v c : _retry (set_Authorization v c) = _retry c.
Proof. unfold set_Authorization. by destruct (headers c). Qed.

Lemma retry_authorize st c : _retry (authorize st c) = _retry c.
Proof. unfold authorize. case_match; [apply retry_set_Authorization | done]. Qed.

Lemma retry_wire st c : _retry (wire st c) = _retry c.
Proof. unfold wire. by rewrite retry_authorize. Qed.


Lemma Authorization_set v c :
  is_Some (headers c) → Authorization (set_Authorization v c) = Some v.
Proof.
  intros [h Hh]. unfold Authorization, set_Authorization.
  rewrite Hh. simpl. apply lookup_insert_eq.
Qed.

(** The header [apiClient] sends when a token is in the store. *)
Lemma Authorization_wire st c :
  truthy (accessToken st) = true →
  Authorization (wire st c) = Some (bearer (accessToken st)).
Proof.
  intros Ht. unfold wire, authorize. rewrite Ht. simpl.
  apply Authorization_set. simpl. eauto.
Qed.

(** Without a token the merged request leaves as it is. *)
Lemma wire_no_token st c :
  truthy (accessToken st) = false → wire st c = mergeConfig c.
Proof. intros Ht. unfold wire, authorize. by rewrite Ht. Qed.

(** ** One step of each function *)

Lemma request_interceptor_eq c (s : Sys) :
  request_interceptor c s = (authorize (store s) c, s).
Proof.
  unfold request_interceptor, authorize, mbind, Eff_bind, getState, mret, Eff_ret.
  by case_match.
Qed.

Lemma dispatchRequest_eq via c (s : Sys) :
  dispatchRequest via c s =
  (settle c (adapter (backend s) c).2,
   {| store := store s; href := href s; backend := (adapter (backend s) c).1;
      trace := trace s ++ [Dispatched via (store s) c] |}).
Proof. unfold dispatchRequest, emit. by destruct (adapter _ _). Qed.

Lemma apiClient_step fuel c (s : Sys) :
  apiClient (S fuel) c s =
  let c1 := wire (store s) c in
  match settle c1 (adapter (backend s) c1).2 with
  | Fulfilled r => (Some (Fulfilled r), sent_from ViaApiClient c1 s)
  | Rejected e => response_rejected (apiClient fuel) e (sent_from ViaApiClient c1 s)
  end.
Proof.
  simpl apiClient. unfold mbind, Eff_bind at 1 2, sent_from.
  rewrite request_interceptor_eq. fold (wire (store s) c).
  rewrite dispatchRequest_eq. simpl.
  by destruct (settle _ _).
Qed.

(** ** The branches of the response interceptor *)

(** Runs the primitive effects of a goal and brings traces to the form
    [t ++ [e1; ...; en]]. *)
Ltac run_effects :=
  unfold mbind, Eff_bind, mret, Eff_ret, getState, update_store, navigate,
    logged_out, refreshed, marked, emit;
  cbn [fst snd store href backend trace];
  rewrite <- ?app_assoc; cbn [app].

Lemma response_rejected_pass retry e (s : Sys) :
  fresh_401 e = false →
  response_rejected retry e s = (Some (Rejected e), s).
Proof.
  unfold fresh_401, response_rejected. by intros ->.
Qed.

Lemma response_rejected_no_refresh_token retry e (s : Sys) :
  fresh_401 e = true →
  truthy (refreshToken (store s)) = false →
  response_rejected retry e s = (Some (Rejected (marked e)), logged_out s).
Proof.
  unfold fresh_401, response_rejected. intros -> Hrt.
  unfold mbind at 1, Eff_bind at 1, getState. rewrite Hrt. by run_effects.
Qed.

Lemma response_rejected_refresh_failed retry e (s : Sys) :
  let rq := refresh_request (refreshToken (store s)) in
  fresh_401 e = true →
  truthy (refreshToken (store s)) = true →
  (∀ r, settled rq s = Fulfilled r → data r = None) →
  response_rejected retry e s =
  (Some (Rejected (marked e)), logged_out (sent_from ViaAxios rq s)).
Proof.
  intros rq. unfold fresh_401, response_rejected, settled. intros -> Hrt Hfail.
  unfold mbind, Eff_bind at 1 2, getState. rewrite Hrt.
  unfold axios_post. fold (refresh_request (refreshToken (store s))).
  fold rq. clearbody rq. unfold sent_from.
  rewrite dispatchRequest_eq in *. cbn [fst snd].
  destruct (settle rq _) as [r|err] eqn:Hs; [|by run_effects].
  rewrite (Hfail r eq_refl). by run_effects.
Qed.

Lemma response_rejected_refreshed retry e (s : Sys) r body :
  let rq := refresh_request (refreshToken (store s)) in
  fresh_401 e = true →
  truthy (refreshToken (store s)) = true →
  settled rq s = Fulfilled r →
  data r = Some body →
  response_rejected retry e s =
  retry (retry_request (body !! "access_token") (config e))
    (refreshed (body !! "access_token") (body !! "refresh_token")
       (sent_from ViaAxios rq s)).
Proof.
  intros rq. unfold fresh_401, response_rejected, settled. intros -> Hrt Hs Hbody.
  unfold mbind, Eff_bind at 1 2, getState. rewrite Hrt.
  unfold axios_post. fold (refresh_request (refreshToken (store s))).
  fold rq. clearbody rq. unfold sent_from.
  rewrite dispatchRequest_eq in *. cbn [fst snd]. rewrite Hs, Hbody.
  by run_effects.
Qed.

(** ** The shape of a run *)

Lemma settle_Rejected_config c r e : settle c r = Rejected e → config e = c.
Proof.
  unfold settle. destruct r as [resp|]; [case_match|]; by intros [= <-].
Qed.

Lemma store_sent_from via c (s : Sys) : store (sent_from via c s) = store s.
Proof. unfold sent_from. by rewrite dispatchRequest_eq. Qed.

Lemma href_sent_from via c (s : Sys) : href (sent_from via c s) = href s.
Proof. unfold sent_from. by rewrite dispatchRequest_eq. Qed.

Lemma trace_sent_from via c (s : Sys) :
  trace (sent_from via c s) = trace s ++ [Dispatched via (store s) c].
Proof. unfold sent_from. by rewrite dispatchRequest_eq. Qed.

(** A request already marked [_retry] settles as the transport says. *)
Lemma apiClient_pass fuel c (s : Sys) :
  needs_refresh (settled (wire (store s) c) s) = false →
  apiClient (S fuel) c s =
  (Some (settled (wire (store s) c) s),
   sent_from ViaApiClient (wire (store s) c) s).
Proof.
  intros Hn. rewrite apiClient_step. cbv zeta. unfold settled in *.
  destruct (settle _ _) as [r|e]; [done|].
  by apply response_rejected_pass.
Qed.

Lemma needs_refresh_retried c (s : Sys) :
  _retry c = true → needs_refresh (settled (wire (store s) c) s) = false.
Proof.
  intros Hr. unfold needs_refresh, settled.
  destruct (settle _ _) as [r|e] eqn:Hs; [done|].
  apply settle_Rejected_config in Hs. unfold fresh_401.
  rewrite Hs, retry_wire, Hr. apply andb_false_r.
Qed.

(** Two levels of [apiClient] are enough for every request: the result
    no longer depends on the fuel, and the run has one of the four
    shapes. *)
Lemma apiClient_Run c (s : Sys) :
  ∃ o s', (∀ fuel, apiClient (S (S fuel)) c s = (Some o, s')) ∧ Run c s o s'.
Proof.
  destruct (needs_refresh (settled (wire (store s) c) s)) eqn:Hn.
  2:{ eexists _, _. split; [intros; by apply apiClient_pass|]. by constructor. }
  unfold needs_refresh, settled in Hn.
  destruct (settle _ _) as [r0|e] eqn:Hs; [done|].
  assert (Hstep : ∀ fuel, apiClient (S (S fuel)) c s =
     response_rejected (apiClient (S fuel)) e
       (sent_from ViaApiClient (wire (store s) c) s)).
  { intros fuel. rewrite apiClient_step. cbv zeta. by rewrite Hs. }
  set (sent := wire (store s) c) in *.
  set (s1 := sent_from ViaApiClient sent s) in *.
  assert (Hst : store s1 = store s) by apply store_sent_from.
  destruct (truthy (refreshToken (store s))) eqn:Hrt.
  2:{ eexists _, _. split.
      - intros fuel. rewrite Hstep.
        apply response_rejected_no_refresh_token; [done|]. by rewrite Hst.
      - by eapply Run_no_refresh_token. }
  set (rq := refresh_request (refreshToken (store s))).
  assert (Hfailed : (∀ r, settled rq s1 = Fulfilled r → data r = None) →
    ∃ o s', (∀ fuel, apiClient (S (S fuel)) c s = (Some o, s')) ∧ Run c s o s').
  { intros Hf. eexists _, _. split.
    - intros fuel. rewrite Hstep.
      apply response_rejected_refresh_failed; [done|by rewrite Hst|].
      by rewrite Hst.
    - rewrite Hst. by eapply Run_refresh_failed. }
  destruct (settled rq s1) as [r|e1] eqn:Hr; [|by apply Hfailed].
  destruct (data r) as [body|] eqn:Hb; [|apply Hfailed; by intros ? [= <-]].
  eexists _, _. split.
  - intros fuel. rewrite Hstep.
    rewrite (response_rejected_refreshed _ _ _ r body);
      [|done|by rewrite Hst|by rewrite Hst|done].
    rewrite Hst. fold rq. rewrite (settle_Rejected_config _ _ _ Hs).
    apply apiClient_pass, needs_refresh_retried.
    unfold retry_request. by rewrite retry_set_Authorization.
  - by eapply Run_retried.
Qed.

(** ** What a run leaves behind *)

Lemma events_since_app (s s' : Sys) evs :
  trace s' = trace s ++ evs → events_since s s' = evs.
Proof. unfold events_since. intros ->. apply drop_app_length. Qed.

(** Computes the store, location and trace of the states [Run] names. *)
Ltac eval_state :=
  unfold logged_out, refreshed;
  cbn [store href backend trace];
  repeat (progress (rewrite ?store_sent_from, ?href_sent_from, ?trace_sent_from;
                    cbn [store href backend trace]));
  rewrite <- ?app_assoc; cbn [app].

Lemma Run_events c (s : Sys) o s' :
  Run c s o s' →
  let sent := wire (store s) c in
  let rq := refresh_request (refreshToken (store s)) in
  let first := Dispatched ViaApiClient (store s) sent in
  let refresh := Dispatched ViaAxios (store s) rq in
  let bye := [StoreSet (logout (store s)); Navigated "/login"] in
  events_since s s' = [first] ∨
  events_since s s' = first :: bye ∨
  events_since s s' = first :: refresh :: bye ∨
  ∃ body : gmap string string,
    let st := setTokens (body !! "access_token") (body !! "refresh_token")
                (store s) in
    events_since s s' =
      [first; refresh; StoreSet st;
       Dispatched ViaApiClient st
         (wire st (retry_request (body !! "access_token") sent))].
Proof.
  intros HR. cbv zeta. destruct HR; subst.
  - left. apply events_since_app. by eval_state.
  - right; left. apply events_since_app. by eval_state.
  - right; right; left. apply events_since_app. by eval_state.
  - right; right; right. exists body. apply events_since_app. by eval_state.
Qed.

Lemma Run_refresh_calls c (s : Sys) o s' :
  Run c s o s' → (count is_refresh_call (events_since s s') ≤ 1)%nat.
Proof.
  intros HR. apply Run_events in HR. cbv zeta in HR.
  destruct HR as [-> | [-> | [-> | [body ->]]]]; unfold count; simpl; lia.
Qed.

Lemma Run_apiClient_sends c (s : Sys) o s' :
  Run c s o s' → (count is_apiClient_send (events_since s s') ≤ 2)%nat.
Proof.
  intros HR. apply Run_events in HR. cbv zeta in HR.
  destruct HR as [-> | [-> | [-> | [body ->]]]]; unfold count; simpl; lia.
Qed.

Lemma backend_sent_from via c (s : Sys) :
  backend (sent_from via c s) = (adapter (backend s) c).1.
Proof. unfold sent_from. by rewrite dispatchRequest_eq. Qed.

Lemma fuel_two (fuel : nat) : (2 ≤ fuel)%nat → ∃ n, fuel = S (S n).
Proof. intros H. exists (fuel - 2)%nat. lia. Qed.

Lemma needs_refresh_settle c r :
  needs_refresh (settle c r) =
  status_is_401 (reply_response r) && negb (_retry c).
Proof.
  unfold settle, needs_refresh, fresh_401, validateStatus.
  destruct r as [resp|]; [|done]. simpl.
  destruct (_ && _)%Z eqn:Hv; [|done].
  destruct (Z.eqb_spec (status resp) 401) as [E|]; [|done].
  rewrite E in Hv. done.
Qed.

(** A 401 reply to a request not yet marked [_retry] enters line 34. *)
Lemma settled_fresh_401 c (s : Sys) r401 :
  (adapter (backend s) (wire (store s) c)).2 = Replied r401 →
  status r401 = 401%Z →
  _retry c = false →
  let e := {| config := wire (store s) c; response := Some r401 |} in
  settled (wire (store s) c) s = Rejected e ∧ fresh_401 e = true.
Proof.
  intros Hr Hst Hc. unfold settled, settle, fresh_401, validateStatus.
  rewrite Hr, Hst. simpl. by rewrite Hst, retry_wire, Hc.
Qed.

Lemma apiClient_rejected fuel c (s : Sys) e :
  settled (wire (store s) c) s = Rejected e →
  apiClient (S fuel) c s =
  response_rejected (apiClient fuel) e
    (sent_from ViaApiClient (wire (store s) c) s).
Proof.
  intros He. rewrite apiClient_step. cbv zeta. unfold settled in He.
  by rewrite He.
Qed.

(** The three ways through the refresh flow, as equations. *)
Lemma run_no_refresh_token fuel c (s : Sys) e :
  settled (wire (store s) c) s = Rejected e →
  fresh_401 e = true →
  truthy (refreshToken (store s)) = false →
  apiClient (S fuel) c s =
  (Some (Rejected (marked e)),
   logged_out (sent_from ViaApiClient (wire (store s) c) s)).
Proof.
  intros He Hf Hrt. rewrite (apiClient_rejected _ _ _ e) by done.
  apply response_rejected_no_refresh_token; [done|].
  by rewrite store_sent_from.
Qed.

Lemma run_refresh_failed fuel c (s : Sys) e :
  let s1 := sent_from ViaApiClient (wire (store s) c) s in
  let rq := refresh_request (refreshToken (store s)) in
  settled (wire (store s) c) s = Rejected e →
  fresh_401 e = true →
  truthy (refreshToken (store s)) = true →
  (∀ r, settled rq s1 = Fulfilled r → data r = None) →
  apiClient (S fuel) c s =
  (Some (Rejected (marked e)), logged_out (sent_from ViaAxios rq s1)).
Proof.
  intros s1 rq He Hf Hrt Hfail. rewrite (apiClient_rejected _ _ _ e) by done.
  fold s1. subst rq. rewrite <- (store_sent_from ViaApiClient (wire (store s) c) s) in *.
  fold s1 in Hrt, Hfail |- *.
  by apply response_rejected_refresh_failed.
Qed.

Lemma run_retried fuel c (s : Sys) e r body :
  let sent := wire (store s) c in
  let s1 := sent_from ViaApiClient sent s in
  let rq := refresh_request (refreshToken (store s)) in
  let s2 := refreshed (body !! "access_token") (body !! "refresh_token")
              (sent_from ViaAxios rq s1) in
  let again := wire (store s2) (retry_request (body !! "access_token") sent) in
  settled sent s = Rejected e →
  fresh_401 e = true →
  truthy (refreshToken (store s)) = true →
  settled rq s1 = Fulfilled r →
  data r = Some body →
  apiClient (S (S fuel)) c s =
  (Some (settled again s2), sent_from ViaApiClient again s2).
Proof.
  intros sent s1 rq s2 again He Hf Hrt Hr Hb.
  rewrite (apiClient_rejected _ _ _ e) by done. fold sent s1.
  assert (Hst : store s1 = store s) by apply store_sent_from.
  rewrite (response_rejected_refreshed _ _ _ r body);
    [|done|by rewrite Hst|by rewrite Hst|done].
  rewrite Hst. fold rq s2.
  unfold settled in He. rewrite (settle_Rejected_config _ _ _ He).
  apply apiClient_pass, needs_refresh_retried.
  unfold retry_request. by rewrite retry_set_Authorization.
Qed.

(** ** Pass-through *)

(** C6. Outside the 401-recovery case the client is a pass-through.  When
    the condition of line 34 is false for what the transport returned
    (a 2xx response, an error status other than 401, a network error
    without response, or a 401 on a request already marked [_retry]),
    the caller gets exactly what axios settles the transport result to:
    the response unchanged, or the error unchanged.  The run consists of
    the one dispatch: no refresh call, no retry. *)
Theorem pass_through_outside_recovery fuel c (s : Sys) :
  let sent := wire (store s) c in
  let reply := (adapter (backend s) sent).2 in
  status_is_401 (reply_response reply) && negb (_retry c) = false →
  ∃ s',
    apiClient (S fuel) c s = (Some (settle sent reply), s') ∧
    events_since s s' = [Dispatched ViaApiClient (store s) sent] ∧
    count is_refresh_call (events_since s s') = 0%nat ∧
    count is_apiClient_send (events_since s s') = 1%nat.
Proof.
  intros sent reply Hc. exists (sent_from ViaApiClient sent s).
  assert (He : events_since s (sent_from ViaApiClient sent s) =
               [Dispatched ViaApiClient (store s) sent]).
  { apply events_since_app. by eval_state. }
  split; [|by rewrite He].
  apply apiClient_pass. unfold settled. fold sent. fold reply.
  rewrite needs_refresh_settle.
  replace (_retry sent) with (_retry c) by (symmetry; apply retry_wire). done.
Qed.

(** C9. An error that does not enter the refresh flow (line 34 false:
    any error other than a 401, or a 401 on a request already marked
    [_retry]) is rejected as it is, the auth store and
    [window.location.href] are what they were before, and the run
    contains no store update and no navigation. *)
Theorem error_outside_refresh_keeps_state fuel c (s : Sys) e :
  settled (wire (store s) c) s = Rejected e →
  fresh_401 e = false →
  ∃ s',
    apiClient (S fuel) c s = (Some (Rejected e), s') ∧
    store s' = store s ∧
    href s' = href s ∧
    count is_store_update (events_since s s') = 0%nat ∧
    count is_navigation (events_since s s') = 0%nat.
Proof.
  intros He Hf. exists (sent_from ViaApiClient (wire (store s) c) s).
  rewrite apiClient_pass by (by rewrite He). rewrite He.
  rewrite (events_since_app s _ [Dispatched ViaApiClient (store s) (wire (store s) c)])
    by by eval_state.
  by eval_state.
Qed.

(** ** Refresh and retry *)

Lemma settled_Replied_ok c (s : Sys) r :
  (adapter (backend s) c).2 = Replied r →
  validateStatus (status r) = true →
  settled c s = Fulfilled r.
Proof. intros Hr Hv. unfold settled, settle. by rewrite Hr, Hv. Qed.

Lemma same_call_set_Authorization v c : same_call (set_Authorization v c) c.
Proof. unfold same_call, set_Authorization. by destruct (headers c). Qed.

Lemma same_call_wire st c : same_call (wire st c) c.
Proof.
  unfold wire, authorize. case_match; [|done].
  unfold same_call, set_Authorization. by destruct (headers _).
Qed.

Lemma same_call_trans a b c : same_call a b → same_call b c → same_call a c.
Proof. unfold same_call. intros (?&?&?&?) (?&?&?&?). repeat split; congruence. Qed.

(** The retry of line 52 is the original call again. *)
Lemma same_call_retry st st' a c :
  same_call (wire st' (retry_request a (wire st c))) c.
Proof.
  eapply same_call_trans; [apply same_call_wire|].
  eapply same_call_trans; [apply same_call_set_Authorization|].
  apply (same_call_wire st c).
Qed.

(** A successful refresh, end to end. *)
Lemma successful_refresh_run fuel c (s : Sys) r401 r body :
  let sent := wire (store s) c in
  let s1 := sent_from ViaApiClient sent s in
  let rq := refresh_request (refreshToken (store s)) in
  let s2 := sent_from ViaAxios rq s1 in
  let new := {| accessToken := body !! "access_token";
                refreshToken := body !! "refresh_token" |} in
  let again := wire new (retry_request (body !! "access_token") sent) in
  (2 ≤ fuel)%nat →
  (adapter (backend s) sent).2 = Replied r401 →
  status r401 = 401%Z →
  _retry c = false →
  truthy (refreshToken (store s)) = true →
  (adapter (backend s1) rq).2 = Replied r →
  validateStatus (status r) = true →
  data r = Some body →
  ∃ out s',
    apiClient fuel c s = (Some out, s') ∧
    store s' = new ∧
    events_since s s' =
      [Dispatched ViaApiClient (store s) sent;
       Dispatched ViaAxios (store s) rq;
       StoreSet new;
       Dispatched ViaApiClient new again].
Proof.
  intros sent s1 rq s2 new again [n ->]%fuel_two Hr401 Hst Hc Hrt Hr Hv Hb.
  destruct (settled_fresh_401 c s r401) as [He Hf]; [done..|].
  pose proof (settled_Replied_ok _ _ _ Hr Hv) as Hok.
  subst sent s1 rq s2. eexists _, _.
  split; [apply (run_retried _ _ _ _ r body He Hf Hrt Hok Hb)|].
  split; [by eval_state|]. apply events_since_app. by eval_state.
Qed.

(** C1. A request that gets a 401, is not marked [_retry] and finds a
    non-empty refresh token in the store leads to exactly one call of
    the refresh endpoint.  If that call succeeds (a 2xx reply carrying a
    body), the tokens of the body are stored, the original call is
    issued exactly once more, and the caller receives what that retry
    settles to, success or failure, not the original 401. *)
Theorem refresh_once_then_retry_once fuel c (s : Sys) r401 :
  let sent := wire (store s) c in
  let s1 := sent_from ViaApiClient sent s in
  let rq := refresh_request (refreshToken (store s)) in
  let s2 := sent_from ViaAxios rq s1 in
  (2 ≤ fuel)%nat →
  (adapter (backend s) sent).2 = Replied r401 →
  status r401 = 401%Z →
  _retry c = false →
  truthy (refreshToken (store s)) = true →
  ∃ out s',
    apiClient fuel c s = (Some out, s') ∧
    count is_refresh_call (events_since s s') = 1%nat ∧
    ∀ r body,
      (adapter (backend s1) rq).2 = Replied r →
      validateStatus (status r) = true →
      data r = Some body →
      let new := {| accessToken := body !! "access_token";
                    refreshToken := body !! "refresh_token" |} in
      let again := wire new (retry_request (body !! "access_token") sent) in
      store s' = new ∧
      events_since s s' =
        [Dispatched ViaApiClient (store s) sent;
         Dispatched ViaAxios (store s) rq;
         StoreSet new;
         Dispatched ViaApiClient new again] ∧
      count is_apiClient_send (events_since s s') = 2%nat ∧
      same_call again c ∧
      out = settle again (adapter (backend s2) again).2.
Proof.
  intros sent s1 rq s2 [n ->]%fuel_two Hr401 Hst Hc Hrt.
  destruct (settled_fresh_401 c s r401) as [He Hf]; [done..|].
  subst sent s1 rq s2.
  set (first := Dispatched ViaApiClient (store s) (wire (store s) c)).
  set (refresh := Dispatched ViaAxios (store s)
                    (refresh_request (refreshToken (store s)))).
  assert (Hfailed :
    (∀ r, settled (refresh_request (refreshToken (store s)))
            (sent_from ViaApiClient (wire (store s) c) s) = Fulfilled r →
          data r = None) →
    ∃ out s', apiClient (S (S n)) c s = (Some out, s') ∧
      events_since s s' =
        [first; refresh; StoreSet (logout (store s)); Navigated "/login"]).
  { intros Hfail. eexists _, _.
    split; [apply (run_refresh_failed _ _ _ _ He Hf Hrt Hfail)|].
    apply events_since_app. by eval_state. }
  destruct (settled (refresh_request (refreshToken (store s)))
              (sent_from ViaApiClient (wire (store s) c) s)) as [r|e1] eqn:Hr.
  2:{ destruct Hfailed as (out & s' & Hrun & Hev); [by intros ? [=]|].
      exists out, s'. rewrite Hev. split; [done|]. split; [done|].
      intros r body Hr' Hv _.
      by rewrite (settled_Replied_ok _ _ _ Hr' Hv) in Hr. }
  destruct (data r) as [body|] eqn:Hb.
  2:{ destruct Hfailed as (out & s' & Hrun & Hev); [by intros ? [= <-]|].
      exists out, s'. rewrite Hev. split; [done|]. split; [done|].
      intros r' body Hr' Hv Hb'.
      rewrite (settled_Replied_ok _ _ _ Hr' Hv) in Hr. congruence. }
  clear Hfailed.
  eexists _, _. split; [apply (run_retried _ _ _ _ r body He Hf Hrt Hr Hb)|].
  set (new := {| accessToken := body !! "access_token";
                 refreshToken := body !! "refresh_token" |}).
  eval_state. fold new.
  set (again := wire new (retry_request (body !! "access_token")
                            (wire (store s) c))).
  rewrite (events_since_app s _
             [first; refresh; StoreSet new; Dispatched ViaApiClient new again])
    by (by eval_state).
  split; [done|].
  intros r' body' Hr' Hv Hb'.
  rewrite (settled_Replied_ok _ _ _ Hr' Hv) in Hr. injection Hr as ->.
  rewrite Hb in Hb'. injection Hb' as <-.
  cbv zeta. fold new again.
  split; [done|]. split; [done|]. split; [done|].
  split; [apply same_call_retry | done].
Qed.

(** C2. No request leads to more than one refresh call, and the
    refresh/retry process ends: two levels of [apiClient] always produce
    a result, which more fuel does not change, after at most two
    dispatches through [apiClient].  A request already marked [_retry]
    that gets a 401 is not refreshed again: that 401 is what the caller
    receives. *)
Theorem at_most_one_refresh_per_request fuel c (s : Sys) :
  (2 ≤ fuel)%nat →
  ∃ out s',
    apiClient fuel c s = (Some out, s') ∧
    apiClient 2 c s = (Some out, s') ∧
    (count is_refresh_call (events_since s s') ≤ 1)%nat ∧
    (count is_apiClient_send (events_since s s') ≤ 2)%nat ∧
    (_retry c = true →
     ∀ r, (adapter (backend s) (wire (store s) c)).2 = Replied r →
          status r = 401%Z →
          out = Rejected {| config := wire (store s) c; response := Some r |} ∧
          events_since s s' =
            [Dispatched ViaApiClient (store s) (wire (store s) c)]).
Proof.
  intros [n ->]%fuel_two.
  destruct (apiClient_Run c s) as (out & s' & Hrun & HR).
  exists out, s'. split; [apply Hrun|]. split; [apply (Hrun 0%nat)|].
  split; [by eapply Run_refresh_calls|].
  split; [by eapply Run_apiClient_sends|].
  intros Hc r Hr Hst.
  pose proof (apiClient_pass (S n) c s (needs_refresh_retried c s Hc)) as Hp.
  rewrite Hrun in Hp. injection Hp as -> ->.
  split.
  - unfold settled, settle, validateStatus. by rewrite Hr, Hst.
  - apply events_since_app. by eval_state.
Qed.

(** ** The bearer header *)

(** C3. Every request [apiClient] hands to the transport, the retry
    after a refresh included, carries [Authorization: Bearer <token>]
    for the access token the store holds at that moment, whenever that
    token is non-empty.  (The refresh call goes out through the bare
    axios instance and is not concerned.) *)
Theorem bearer_matches_store_at_send fuel c (s : Sys) st sent tok :
  (2 ≤ fuel)%nat →
  Dispatched ViaApiClient st sent ∈ events_since s (apiClient fuel c s).2 →
  accessToken st = Some tok →
  tok ≠ "" →
  Authorization sent = Some ("Bearer " +:+ tok).
Proof.
  intros [n ->]%fuel_two Hin Htok Hne.
  destruct (apiClient_Run c s) as (out & s' & Hrun & HR).
  rewrite Hrun in Hin. cbn [snd] in Hin.
  assert (Ht : truthy (accessToken st) = true).
  { rewrite Htok. simpl. by destruct (String.eqb_spec tok ""). }
  assert (Hgoal : ∀ c', sent = wire st c' →
            Authorization sent = Some ("Bearer " +:+ tok)).
  { intros c' ->. rewrite Authorization_wire by done. by rewrite Htok. }
  apply Run_events in HR. cbv zeta in HR.
  destruct HR as [HR | [HR | [HR | [body HR]]]]; rewrite HR in Hin;
    repeat (apply elem_of_cons in Hin as [Hin | Hin]);
    try (by apply elem_of_nil in Hin); try discriminate Hin;
    injection Hin as -> ->; by eapply Hgoal.
Qed.

(** ** Logout paths *)

(** C4. When a request gets a 401, is not marked [_retry], finds a
    refresh token and the refresh call fails (an error status or a
    network error), the client clears the credential pair, sets the
    location to [/login] and rejects with the error of the original
    request, carrying the original 401 response (its [config] now marked
    [_retry]); the error of the refresh call is not what the caller
    gets. *)
Theorem refresh_failure_logs_out fuel c (s : Sys) r401 e1 :
  let sent := wire (store s) c in
  let s1 := sent_from ViaApiClient sent s in
  let rq := refresh_request (refreshToken (store s)) in
  (adapter (backend s) sent).2 = Replied r401 →
  status r401 = 401%Z →
  _retry c = false →
  truthy (refreshToken (store s)) = true →
  settled rq s1 = Rejected e1 →
  ∃ out s',
    apiClient (S fuel) c s = (Some (Rejected out), s') ∧
    out = {| config := set_retry sent; response := Some r401 |} ∧
    out ≠ e1 ∧
    store s' = {| accessToken := None; refreshToken := None |} ∧
    href s' = "/login" ∧
    events_since s s' =
      [Dispatched ViaApiClient (store s) sent;
       Dispatched ViaAxios (store s) rq;
       StoreSet {| accessToken := None; refreshToken := None |};
       Navigated "/login"].
Proof.
  intros sent s1 rq Hr401 Hst Hc Hrt Hr.
  destruct (settled_fresh_401 c s r401) as [He Hf]; [done..|].
  subst sent s1 rq. eexists _, _.
  split; [apply (run_refresh_failed _ _ _ _ He Hf Hrt)|].
  { rewrite Hr. by intros ? [=]. }
  split; [done|]. split.
  - intros <-. apply settle_Rejected_config in Hr. by inversion Hr.
  - split; [done|]. split; [done|]. apply events_since_app. by eval_state.
Qed.

(** C5. When a request gets a 401, is not marked [_retry] and the store
    holds no refresh token (absent or empty), the client clears the
    credential pair, sets the location to [/login] and rejects with the
    error of the original request (its [config] now marked [_retry]).
    The refresh endpoint is not called. *)
Theorem no_refresh_token_logs_out fuel c (s : Sys) r401 :
  let sent := wire (store s) c in
  (adapter (backend s) sent).2 = Replied r401 →
  status r401 = 401%Z →
  _retry c = false →
  truthy (refreshToken (store s)) = false →
  ∃ s',
    apiClient (S fuel) c s =
      (Some (Rejected {| config := set_retry sent; response := Some r401 |}), s') ∧
    store s' = {| accessToken := None; refreshToken := None |} ∧
    href s' = "/login" ∧
    events_since s s' =
      [Dispatched ViaApiClient (store s) sent;
       StoreSet {| accessToken := None; refreshToken := None |};
       Navigated "/login"] ∧
    count is_refresh_call (events_since s s') = 0%nat.
Proof.
  intros sent Hr401 Hst Hc Hrt.
  destruct (settled_fresh_401 c s r401) as [He Hf]; [done..|].
  subst sent. eexists.
  split; [apply (run_no_refresh_token _ _ _ _ He Hf Hrt)|].
  rewrite (events_since_app s _
    [Dispatched ViaApiClient (store s) (wire (store s) c);
     StoreSet {| accessToken := None; refreshToken := None |};
     Navigated "/login"]) by (by eval_state).
  done.
Qed.

(** ** The store update of a refresh *)

(** C7. After a successful refresh call the run contains exactly one
    store update, the [setTokens] of line 46, which assigns the access
    and the refresh token of the reply together.  Every store value an
    observer can see during the run, at a dispatch or after an update,
    is either the pair from before or the new pair: no mix of the two. *)
Theorem refresh_replaces_pair_in_one_update fuel c (s : Sys) r401 r body :
  let sent := wire (store s) c in
  let s1 := sent_from ViaApiClient sent s in
  let rq := refresh_request (refreshToken (store s)) in
  let new := {| accessToken := body !! "access_token";
                refreshToken := body !! "refresh_token" |} in
  (2 ≤ fuel)%nat →
  (adapter (backend s) sent).2 = Replied r401 →
  status r401 = 401%Z →
  _retry c = false →
  truthy (refreshToken (store s)) = true →
  (adapter (backend s1) rq).2 = Replied r →
  validateStatus (status r) = true →
  data r = Some body →
  ∃ out s',
    apiClient fuel c s = (Some out, s') ∧
    List.filter is_store_update (events_since s s') = [StoreSet new] ∧
    store s' = new ∧
    ∀ e st, e ∈ events_since s s' → observed_store e = Some st →
            st = store s ∨ st = new.
Proof.
  intros sent s1 rq new Hfuel Hr401 Hst Hc Hrt Hr Hv Hb.
  destruct (successful_refresh_run fuel c s r401 r body)
    as (out & s' & Hrun & Hs' & Hev); [done..|].
  exists out, s'. fold sent s1 rq new in Hs', Hev.
  split; [done|]. rewrite Hev. split; [done|]. split; [done|].
  intros e st Hin Hobs.
  repeat (apply elem_of_cons in Hin as [-> | Hin]);
    try (by apply elem_of_nil in Hin); injection Hobs as <-; auto.
Qed.

(** ** The refresh call *)

Lemma Authorization_refresh_request rt : Authorization (refresh_request rt) = None.
Proof. done. Qed.

(** C8. The refresh call goes through the bare axios instance and so
    past both interceptors: it carries no [Authorization] header,
    whatever the store holds, and a run contains at most one such call.
    When the refresh call itself is answered with a 401, the response
    interceptor is not entered again: the run ends after that one call
    with the logout and the original error. *)
Theorem refresh_call_bypasses_interceptors fuel c (s : Sys) :
  let sent := wire (store s) c in
  let s1 := sent_from ViaApiClient sent s in
  let rq := refresh_request (refreshToken (store s)) in
  (2 ≤ fuel)%nat →
  ∃ out s',
    apiClient fuel c s = (Some out, s') ∧
    (count is_refresh_call (events_since s s') ≤ 1)%nat ∧
    (∀ st q, Dispatched ViaAxios st q ∈ events_since s s' →
             q = rq ∧ Authorization q = None) ∧
    (∀ e r,
       settled sent s = Rejected e →
       fresh_401 e = true →
       truthy (refreshToken (store s)) = true →
       (adapter (backend s1) rq).2 = Replied r →
       status r = 401%Z →
       out = Rejected (marked e) ∧
       events_since s s' =
         [Dispatched ViaApiClient (store s) sent;
          Dispatched ViaAxios (store s) rq;
          StoreSet (logout (store s));
          Navigated "/login"]).
Proof.
  intros sent s1 rq [n ->]%fuel_two.
  destruct (apiClient_Run c s) as (out & s' & Hrun & HR).
  exists out, s'. split; [apply Hrun|].
  split; [by eapply Run_refresh_calls|]. split.
  - intros st q Hin. apply Run_events in HR. cbv zeta in HR.
    destruct HR as [HR | [HR | [HR | [body HR]]]]; rewrite HR in Hin;
      repeat (apply elem_of_cons in Hin as [Hin | Hin]);
      try (by apply elem_of_nil in Hin); try discriminate Hin;
      by injection Hin as -> ->.
  - intros e r He Hf Hrt Hr Hst. subst sent s1 rq.
    assert (Hrej : settled (refresh_request (refreshToken (store s)))
                     (sent_from ViaApiClient (wire (store s) c) s) =
                   Rejected {| config := refresh_request (refreshToken (store s));
                               response := Some r |}).
    { unfold settled, settle, validateStatus. by rewrite Hr, Hst. }
    pose proof (Hrun 0%nat) as H0.
    rewrite (run_refresh_failed _ _ _ _ He Hf Hrt) in H0.
    2:{ rewrite Hrej. by intros ? [=]. }
    injection H0 as <- <-. split; [done|].
    apply events_since_app. by eval_state.
Qed.

(** ** Requests sent without a token *)

Lemma Authorization_mergeConfig c :
  Authorization (mergeConfig c) = Authorization c.
Proof.
  unfold Authorization. simpl. rewrite lookup_union_l by done.
  by destruct (headers c).
Qed.

(** C10, as the code has it.  When the store holds no access token
    (absent or empty) at send time, the request interceptor returns the
    request untouched and writes no bearer value of its own: the request
    goes out with the [Authorization] header its config already carried,
    and with none if it carried none. *)
Theorem no_token_request_untouched fuel c (s : Sys) :
  (2 ≤ fuel)%nat →
  truthy (accessToken (store s)) = false →
  request_interceptor c s = (c, s) ∧
  (∃ rest, events_since s (apiClient fuel c s).2 =
           Dispatched ViaApiClient (store s) (mergeConfig c) :: rest) ∧
  Authorization (mergeConfig c) = Authorization c ∧
  (Authorization c = None → Authorization (mergeConfig c) = None).
Proof.
  intros [n ->]%fuel_two Ht. split.
  { rewrite request_interceptor_eq. unfold authorize. by rewrite Ht. }
  split.
  { destruct (apiClient_Run c s) as (out & s' & Hrun & HR).
    rewrite Hrun. cbn [snd]. rewrite <- (wire_no_token (store s) c Ht).
    apply Run_events in HR. cbv zeta in HR.
    destruct HR as [-> | [-> | [-> | [body ->]]]]; eauto. }
  split; [apply Authorization_mergeConfig|].
  by rewrite Authorization_mergeConfig.
Qed.

(** * Further properties of the client *)






(** X2. A refresh reply with a 2xx status but a null body does not count
    as a refresh: reading the tokens off it throws inside the [try] of
    line 40, so the client logs out, sets the location to [/login] and
    rejects with the original 401; no tokens are stored and the request
    is not retried. *)
Theorem refresh_without_body_is_a_failure fuel c (s : Sys) r401 r :
  let sent := wire (store s) c in
  let s1 := sent_from ViaApiClient sent s in
  let rq := refresh_request (refreshToken (store s)) in
  (adapter (backend s) sent).2 = Replied r401 →
  status r401 = 401%Z →
  _retry c = false →
  truthy (refreshToken (store s)) = true →
  (adapter (backend s1) rq).2 = Replied r →
  validateStatus (status r) = true →
  data r = None →
  ∃ s',
    apiClient (S fuel) c s =
      (Some (Rejected {| config := set_retry sent; response := Some r401 |}), s') ∧
    store s' = {| accessToken := None; refreshToken := None |} ∧
    href s' = "/login" ∧
    events_since s s' =
      [Dispatched ViaApiClient (store s) sent;
       Dispatched ViaAxios (store s) rq;
       StoreSet {| accessToken := None; refreshToken := None |};
       Navigated "/login"].
Proof.
  intros sent s1 rq Hr401 Hst Hc Hrt Hr Hv Hb.
  destruct (settled_fresh_401 c s r401) as [He Hf]; [done..|].
  pose proof (settled_Replied_ok _ _ _ Hr Hv) as Hok.
  subst sent s1 rq. eexists.
  split; [apply (run_refresh_failed _ _ _ _ He Hf Hrt)|].
  { rewrite Hok. by intros ? [= <-]. }
  split; [done|]. split; [done|]. apply events_since_app. by eval_state.
Qed.

(** X3. The client only ever navigates to [/login], and only together
    with a logout: whenever a run contains a navigation, the store ends
    up cleared, the location is [/login] and the caller gets an error
    carrying a 401 response.  A call that resolves has never navigated
    and leaves the location as it was. *)
Theorem navigation_means_logout_and_401 fuel c (s : Sys) :
  (2 ≤ fuel)%nat →
  ∃ out s',
    apiClient fuel c s = (Some out, s') ∧
    (∀ to, Navigated to ∈ events_since s s' →
       to = "/login" ∧
       href s' = "/login" ∧
       store s' = {| accessToken := None; refreshToken := None |} ∧
       ∃ e, out = Rejected e ∧ status_is_401 (response e) = true) ∧
    (∀ r, out = Fulfilled r →
       href s' = href s ∧ count is_navigation (events_since s s') = 0%nat).
Proof.
  intros [n ->]%fuel_two.
  destruct (apiClient_Run c s) as (out & s' & Hrun & HR).
  exists out, s'. split; [apply Hrun|].
  destruct HR as [sent -> Hn | sent e -> He Hf Hrt
                 | sent e s1 rq -> He Hf Hrt -> -> Hfail
                 | sent e s1 rq r body s2 again -> He Hf Hrt -> -> Hr Hb -> ->].
  - rewrite (events_since_app s _
      [Dispatched ViaApiClient (store s) (wire (store s) c)]) by (by eval_state).
    split.
    + intros to Hin.
      repeat (apply elem_of_cons in Hin as [Hin | Hin]);
        try (by apply elem_of_nil in Hin); discriminate Hin.
    + intros r _. split; [by eval_state | done].
  - rewrite (events_since_app s _
      [Dispatched ViaApiClient (store s) (wire (store s) c);
       StoreSet (logout (store s)); Navigated "/login"]) by (by eval_state).
    split; [|by intros r [=]].
    intros to Hin.
    repeat (apply elem_of_cons in Hin as [Hin | Hin]);
      try (by apply elem_of_nil in Hin); try discriminate Hin.
    injection Hin as ->. split; [done|]. split; [done|]. split; [done|].
    eexists. split; [done|]. apply andb_prop in Hf. apply Hf.
  - rewrite (events_since_app s _
      [Dispatched ViaApiClient (store s) (wire (store s) c);
       Dispatched ViaAxios (store s) (refresh_request (refreshToken (store s)));
       StoreSet (logout (store s)); Navigated "/login"]) by (by eval_state).
    split; [|by intros r [=]].
    intros to Hin.
    repeat (apply elem_of_cons in Hin as [Hin | Hin]);
      try (by apply elem_of_nil in Hin); try discriminate Hin.
    injection Hin as ->. split; [done|]. split; [done|]. split; [done|].
    eexists. split; [done|]. apply andb_prop in Hf. apply Hf.
  - set (new := setTokens (body !! "access_token") (body !! "refresh_token")
                  (store s)).
    rewrite (events_since_app s _
      [Dispatched ViaApiClient (store s) (wire (store s) c);
       Dispatched ViaAxios (store s) (refresh_request (refreshToken (store s)));
       StoreSet new;
       Dispatched ViaApiClient new
         (wire new (retry_request (body !! "access_token")
                      (wire (store s) c)))]) by (by eval_state).
    split.
    + intros to Hin.
      repeat (apply elem_of_cons in Hin as [Hin | Hin]);
        try (by apply elem_of_nil in Hin); discriminate Hin.
    + intros r' _. split; [by eval_state | done].
Qed.

(** Every run starts by sending the request, and only adds to the
    trace. *)
Lemma Run_trace c (s : Sys) o s' :
  Run c s o s' →
  ∃ rest,
    trace s' =
    trace s ++ Dispatched ViaApiClient (store s) (wire (store s) c) :: rest.
Proof.
  intros HR. destruct HR; subst; eexists; by eval_state.
Qed.

Lemma apiClient_trace fuel c (s : Sys) :
  (2 ≤ fuel)%nat →
  ∃ out s' rest,
    apiClient fuel c s = (Some out, s') ∧
    trace s' =
    trace s ++ Dispatched ViaApiClient (store s) (wire (store s) c) :: rest.
Proof.
  intros [n ->]%fuel_two.
  destruct (apiClient_Run c s) as (out & s' & Hrun & HR).
  destruct (Run_trace _ _ _ _ HR) as [rest Ht].
  exists out, s', rest. split; [apply Hrun | done].
Qed.

End Properties.

(** * Properties of the callers *)

(** ** Dashboard pagination *)

(** X13. The Previous and Next buttons never leave the pages the server
    reported: from a page between 1 and [pages], both land on a page
    between 1 and [pages]. *)
Theorem pagination_stays_in_range pages page :
  (pages ≤ Dashboard.MAX_SAFE_INTEGER)%Z →
  (1 ≤ page ≤ pages)%Z →
  (1 ≤ Dashboard.previous page ≤ pages)%Z ∧
  (1 ≤ Dashboard.next pages page ≤ pages)%Z.
Proof. unfold Dashboard.previous, Dashboard.next. lia. Qed.

(** X14. A button is disabled exactly when pressing it would not change
    the page: Previous on page 1, Next on the last page. *)
Theorem disabled_buttons_are_the_noops pages page :
  (pages ≤ Dashboard.MAX_SAFE_INTEGER)%Z →
  (1 ≤ page ≤ pages)%Z →
  (Dashboard.previous_disabled page = true ↔ Dashboard.previous page = page) ∧
  (Dashboard.next_disabled pages page = true ↔ Dashboard.next pages page = page).
Proof.
  unfold Dashboard.previous_disabled, Dashboard.next_disabled,
    Dashboard.previous, Dashboard.next.
  intros _ Hp. rewrite !Z.eqb_eq. lia.
Qed.

(** X15. Next then Previous, and Previous then Next, come back to the
    same page whenever the first button was enabled. *)
Theorem previous_next_round_trip pages page :
  (pages ≤ Dashboard.MAX_SAFE_INTEGER)%Z →
  (1 ≤ page ≤ pages)%Z →
  (Dashboard.next_disabled pages page = false →
   Dashboard.previous (Dashboard.next pages page) = page) ∧
  (Dashboard.previous_disabled page = false →
   Dashboard.next pages (Dashboard.previous page) = page).
Proof.
  unfold Dashboard.previous_disabled, Dashboard.next_disabled,
    Dashboard.previous, Dashboard.next.
  intros _ Hp. rewrite !Z.eqb_neq. lia.
Qed.

(** X16. The "Showing a to b of total" line: on a page that has rows it
    names a non-empty range inside [1, total] of at most [per_page]
    rows, and the range of the next page starts right after it. *)
Theorem showing_range page per_page total :
  (1 ≤ per_page)%Z →
  (1 ≤ page)%Z →
  (total ≤ Dashboard.MAX_SAFE_INTEGER)%Z →
  (page * per_page ≤ Dashboard.MAX_SAFE_INTEGER)%Z →
  ((page - 1) * per_page < total)%Z →
  let first := Dashboard.showing_first page per_page in
  let last := Dashboard.showing_last page per_page total in
  (1 ≤ first ≤ last)%Z ∧ (last ≤ total)%Z ∧
  (last - first + 1 ≤ per_page)%Z ∧
  (page * per_page < total →
   Dashboard.showing_first (page + 1) per_page = last + 1)%Z.
Proof.
  unfold Dashboard.showing_first, Dashboard.showing_last.
  intros Hpp Hp _ _ Hrows. cbv zeta. nia.
Qed.

(** ** Signal badges *)

(** X17. The text colour and the background of a signal badge always
    have the same hue: for every signal, known or not, the one is
    [text-<hue>] and the other [bg-<hue>/10 border-<hue>/20]; the hue
    is gray exactly for a signal that is none of the five known ones. *)
Theorem signal_colors_share_hue signal :
  ∃ hue,
    getSignalColor signal = "text-" +:+ hue ∧
    getSignalBgColor signal =
      "bg-" +:+ hue +:+ "/10 border-" +:+ hue +:+ "/20" ∧
    (hue = "gray-500" ↔
     signal ∉ [Some "strong_buy"; Some "buy"; Some "hold"; Some "sell";
               Some "strong_sell"]).
Proof.
  assert (Hknown : ∀ (i : nat) (hue : string) (signal : option string),
    [Some "strong_buy"; Some "buy"; Some "hold"; Some "sell";
     Some "strong_sell"] !! i = Some signal →
    hue ≠ "gray-500" →
    hue = "gray-500" ↔
    signal ∉ [Some "strong_buy"; Some "buy"; Some "hold"; Some "sell";
              Some "strong_sell"]).
  { intros i hue sg Hi Hhue. split; [done|].
    intros Hn. exfalso. apply Hn. by eapply list_elem_of_lookup_2. }
  assert (Hother : ∀ signal : option string,
    (∀ s, signal = Some s → s ≠ "strong_buy" ∧ s ≠ "buy" ∧ s ≠ "hold" ∧
                            s ≠ "sell" ∧ s ≠ "strong_sell") →
    "gray-500" = "gray-500" ↔
    signal ∉ [Some "strong_buy"; Some "buy"; Some "hold"; Some "sell";
              Some "strong_sell"]).
  { intros sg Hs. split; [|done]. intros _ Hin.
    repeat (apply elem_of_cons in Hin as [Hin | Hin]);
      try (by apply elem_of_nil in Hin);
      destruct (Hs _ Hin) as (? & ? & ? & ? & ?); done. }
  unfold getSignalColor, getSignalBgColor.
  destruct signal as [s|].
  2:{ exists "gray-500". split; [done|]. split; [done|].
      apply Hother. by intros s [=]. }
  destruct (String.eqb_spec s "strong_buy") as [-> | H1].
  { exists "green-500". split; [done|]. split; [done|]. by apply (Hknown 0%nat). }
  destruct (String.eqb_spec s "buy") as [-> | H2].
  { exists "green-400". split; [done|]. split; [done|]. by apply (Hknown 1%nat). }
  destruct (String.eqb_spec s "hold") as [-> | H3].
  { exists "yellow-500". split; [done|]. split; [done|]. by apply (Hknown 2%nat). }
  destruct (String.eqb_spec s "sell") as [-> | H4].
  { exists "red-400". split; [done|]. split; [done|]. by apply (Hknown 3%nat). }
  destruct (String.eqb_spec s "strong_sell") as [-> | H5].
  { exists "red-500". split; [done|]. split; [done|]. by apply (Hknown 4%nat). }
  exists "gray-500". split; [done|]. split; [done|].
  apply Hother. by intros ? [= <-].
Qed.

(** ** formatSignal *)

Lemma is_lower_word a : is_lower a = true → is_word a = true.
Proof. unfold is_word. by intros ->. Qed.

Lemma is_lower_not_underscore a : is_lower a = true → Ascii.eqb a "_" = false.
Proof.
  intros Hl. destruct (Ascii.eqb_spec a "_") as [-> | ?]; [|done].
  by vm_compute in Hl.
Qed.

Lemma toUpperCase_underscore a :
  Ascii.eqb (toUpperCase a) "_" = Ascii.eqb a "_".
Proof.
  unfold toUpperCase. destruct (is_lower a) eqn:Hl; [|done].
  rewrite (is_lower_not_underscore a Hl).
  destruct (Ascii.eqb_spec (ascii_of_N (N_of_ascii a - 32)) "_") as [He|]; [|done].
  apply (f_equal N_of_ascii) in He. unfold is_lower in Hl.
  apply andb_prop in Hl as [H1%N.leb_le H2%N.leb_le].
  rewrite N_ascii_embedding in He by lia. cbn in He. lia.
Qed.

Lemma append_String a (w rest : string) :
  String a w +:+ rest = String a (w +:+ rest).
Proof. done. Qed.

Lemma append_empty_r (w : string) : w +:+ "" = w.
Proof. induction w as [|a w IH]; [done|]. by rewrite append_String, IH. Qed.

Lemma replace_first_underscore_lower w rest :
  all_lower w = true →
  replace_first_underscore (w +:+ rest) = w +:+ replace_first_underscore rest.
Proof.
  induction w as [|a w IH]; [done|]. rewrite !append_String.
  cbn [all_lower replace_first_underscore].
  intros [Ha Hw]%andb_prop. by rewrite (is_lower_not_underscore a Ha), IH.
Qed.

Lemma capitalize_words_inside w rest :
  all_lower w = true →
  capitalize_words true (w +:+ rest) = w +:+ capitalize_words true rest.
Proof.
  induction w as [|a w IH]; [done|]. rewrite !append_String.
  cbn [all_lower capitalize_words].
  intros [Ha Hw]%andb_prop. rewrite (is_lower_word a Ha). cbn [andb negb].
  by rewrite IH.
Qed.

Lemma capitalize_words_start w rest :
  all_lower w = true →
  w ≠ "" →
  capitalize_words false (w +:+ rest) =
  capitalized w +:+ capitalize_words true rest.
Proof.
  destruct w as [|a w]; [done|]. rewrite append_String.
  cbn [all_lower capitalize_words capitalized].
  intros [Ha Hw]%andb_prop _. rewrite (is_lower_word a Ha). cbn [andb negb].
  by rewrite capitalize_words_inside, append_String.
Qed.

Lemma capitalize_words_lower w :
  all_lower w = true → capitalize_words false w = capitalized w.
Proof.
  intros Hw. destruct (decide (w = "")) as [-> | Hne]; [done|].
  pose proof (capitalize_words_start w "" Hw Hne) as H.
  by rewrite !append_empty_r in H.
Qed.

Lemma formatSignal_nonempty s :
  s ≠ "" →
  formatSignal (Some s) = capitalize_words false (replace_first_underscore s).
Proof. intros Hne. unfold formatSignal. by destruct s. Qed.

(** X18. On the snake-case names the backend uses, [formatSignal] prints
    title case: a lower-case word becomes the word capitalized, and two
    lower-case words joined by an underscore become the two capitalized
    words separated by a space. *)
Theorem formatSignal_title_case w1 w2 :
  all_lower w1 = true →
  all_lower w2 = true →
  w1 ≠ "" →
  formatSignal (Some w1) = capitalized w1 ∧
  formatSignal (Some (w1 +:+ "_" +:+ w2)) =
    capitalized w1 +:+ " " +:+ capitalized w2.
Proof.
  intros H1 H2 Hne.
  rewrite !formatSignal_nonempty; [|by destruct w1|done].
  split.
  - rewrite <- (append_empty_r w1) at 1.
    rewrite replace_first_underscore_lower by done.
    change (replace_first_underscore "") with "". rewrite append_empty_r.
    by apply capitalize_words_lower.
  - rewrite replace_first_underscore_lower by done.
    change (replace_first_underscore ("_" +:+ w2)) with (String " " w2).
    rewrite capitalize_words_start by done.
    f_equal. change (" " +:+ capitalized w2) with (String " " (capitalized w2)).
    cbn [capitalize_words]. f_equal.
    by apply capitalize_words_lower.
Qed.

Lemma underscores_capitalize_words b s :
  underscores (capitalize_words b s) = underscores s.
Proof.
  revert b. induction s as [|a s IH]; intros b; [done|].
  cbn [capitalize_words underscores].
  rewrite IH. f_equal.
  destruct (is_word a && negb b); [|done].
  by rewrite toUpperCase_underscore.
Qed.

Lemma underscores_replace_first s :
  underscores (replace_first_underscore s) = pred (underscores s).
Proof.
  induction s as [|a s IH]; [done|]. cbn [replace_first_underscore underscores].
  destruct (Ascii.eqb a "_") eqn:Ha; cbn [underscores].
  - change (Ascii.eqb " " "_") with false. done.
  - rewrite Ha, IH. done.
Qed.

Lemma length_capitalize_words b s :
  String.length (capitalize_words b s) = String.length s.
Proof. revert b. induction s as [|a s IH]; intros b; cbn; [done|]. by rewrite IH. Qed.

Lemma length_replace_first s :
  String.length (replace_first_underscore s) = String.length s.
Proof.
  induction s as [|a s IH]; [done|]. cbn [replace_first_underscore].
  destruct (Ascii.eqb a "_"); cbn [String.length]; [done|]. by rewrite IH.
Qed.

(** X19. [formatSignal] turns only the first underscore of a signal
    into a space: the output has one underscore less than the input
    (none less when there was none) and the same length. *)
Theorem formatSignal_replaces_one_underscore s :
  s ≠ "" →
  underscores (formatSignal (Some s)) = pred (underscores s) ∧
  String.length (formatSignal (Some s)) = String.length s.
Proof.
  intros Hne. rewrite formatSignal_nonempty by done.
  split.
  - by rewrite underscores_capitalize_words, underscores_replace_first.
  - by rewrite length_capitalize_words, length_replace_first.
Qed.

(** ** The api modules *)

(** Computes the store, location, backend and trace of the states a
    run goes through. *)
Ltac eval_state :=
  unfold logged_out, refreshed;
  cbn [store href backend trace];
  repeat (progress (rewrite ?store_sent_from, ?href_sent_from,
                      ?trace_sent_from, ?backend_sent_from;
                    cbn [store href backend trace]));
  rewrite <- ?app_assoc; cbn [app].

Section ApiProperties.

Context {B : Type}.
Variable adapter : B → Config → B * NetResult.
Variable VITE_API_URL : option string.

#[local] Abbreviation apiClient := (apiClient adapter VITE_API_URL).
#[local] Abbreviation wire := (wire VITE_API_URL).
#[local] Abbreviation sent_from := (sent_from adapter).
#[local] Abbreviation settled := (settled adapter).

Lemma settle_Fulfilled c x r :
  settle c x = Fulfilled r → x = Replied r ∧ validateStatus (status r) = true.
Proof.
  unfold settle. destruct x as [resp|]; [|done].
  destruct (validateStatus (status resp)) eqn:Hv; [|done].
  by intros [= <-].
Qed.

Lemma settled_Fulfilled c (s : Sys B) r :
  settled c s = Fulfilled r →
  adapter (backend s) c = (backend (sent_from ViaApiClient c s), Replied r) ∧
  validateStatus (status r) = true.
Proof.
  unfold settled. intros [Hx Hv]%settle_Fulfilled. split; [|done].
  rewrite backend_sent_from. destruct (adapter (backend s) c) as [b x].
  cbn in *. by rewrite Hx.
Qed.

(** X4. What a function of the api modules resolves with is the body of
    a 2xx reply of the backend to its own call: the last request of the
    run, which has the URL, method, parameters and body that were asked
    for.  It is never the body of the refresh reply nor of an error. *)
Theorem resolved_data_answers_the_call fuel c (s : Sys B) d s' :
  (2 ≤ fuel)%nat →
  response_data (apiClient fuel c) s = (Some (Resolved d), s') →
  ∃ st sent b r,
    last (events_since s s') = Some (Dispatched ViaApiClient st sent) ∧
    same_call sent c ∧
    adapter b sent = (backend s', Replied r) ∧
    validateStatus (status r) = true ∧
    d = data r.
Proof.
  intros [n ->]%fuel_two. unfold response_data.
  destruct (apiClient_Run adapter VITE_API_URL c s) as (out & s0 & Hrun & HR).
  rewrite Hrun. destruct out as [r|e]; [|done]. intros [= <- <-].
  inversion HR as [sent -> Hn Ho | | |
                   sent e s1 rq r' body s2 again -> He Hf Hrt -> -> Hr Hb -> -> Ho].
  - apply settled_Fulfilled in Ho as [Ha Hv].
    eexists _, _, _, r. split; [|split; [apply same_call_wire|done]].
    rewrite (events_since_app s _
      [Dispatched ViaApiClient (store s) (wire (store s) c)]) by (by eval_state).
    done.
  - apply settled_Fulfilled in Ho as [Ha Hv].
    eexists _, _, _, r. split; [|split; [apply same_call_retry|done]].
    erewrite events_since_app by (by eval_state). done.
Qed.


End ApiProperties.

Section CallerProperties.

Context {B : Type}.
Variable adapter : B → Config → B * NetResult.
Variable VITE_API_URL : option string.
Variable JSON_stringify : list (string * string) → string.

#[local] Abbreviation apiClient := (apiClient adapter VITE_API_URL).
#[local] Abbreviation wire := (wire VITE_API_URL).
#[local] Abbreviation sent_from := (sent_from adapter).
#[local] Abbreviation settled := (settled adapter).

(** The functions of the api modules are calls of this shape. *)
Lemma api_functions_are_calls fuel symbol service fields :
  auth.getMe adapter VITE_API_URL fuel =
    response_data (apiClient fuel (get_config "/auth/me")) ∧
  auth.login adapter VITE_API_URL JSON_stringify fuel fields =
    response_data
      (apiClient fuel (post_config "/auth/login" (Some (JSON_stringify fields)))) ∧
  auth.register adapter VITE_API_URL JSON_stringify fuel fields =
    response_data
      (apiClient fuel (post_config "/auth/register" (Some (JSON_stringify fields)))) ∧
  stocks.getStock adapter VITE_API_URL fuel symbol =
    response_data (apiClient fuel (get_config ("/stocks/" +:+ symbol))) ∧
  stocks.getTechnicalIndicators adapter VITE_API_URL fuel symbol =
    response_data
      (apiClient fuel (get_config ("/stocks/" +:+ symbol +:+ "/indicators"))) ∧
  settings.getAPIKeyStatus adapter VITE_API_URL fuel =
    response_data (apiClient fuel (get_config "/settings/api-keys")) ∧
  settings.testAPIKey adapter VITE_API_URL JSON_stringify fuel service =
    response_data
      (apiClient fuel
         (post_config "/settings/api-keys/test"
            (Some (JSON_stringify [("service", service)])))) ∧
  settings.startLoadStocks adapter VITE_API_URL JSON_stringify fuel =
    response_data (apiClient fuel (post_config "/settings/load-stocks" None)) ∧
  settings.getLoadStocksStatus adapter VITE_API_URL fuel =
    response_data (apiClient fuel (get_config "/settings/load-stocks/status")).
Proof. repeat split. Qed.

(** X5. [logout()] of api/auth.ts only tells the backend: when the
    backend accepts the call, the function resolves and the credential
    store still holds the tokens it held before, and the location is
    unchanged. *)
Theorem api_logout_keeps_the_tokens fuel (s : Sys B) r :
  (adapter (backend s)
     (wire (store s) (post_config "/auth/logout" None))).2 = Replied r →
  validateStatus (status r) = true →
  ∃ s',
    auth.logout adapter VITE_API_URL JSON_stringify (S fuel) s =
      (Some (Resolved tt), s') ∧
    store s' = store s ∧
    href s' = href s ∧
    events_since s s' =
      [Dispatched ViaApiClient (store s)
         (wire (store s) (post_config "/auth/logout" None))].
Proof.
  intros Hr Hv. unfold auth.logout, apiClient_post. cbn [fmap option_fmap option_map].
  pose proof (settled_Replied_ok adapter _ _ _ Hr Hv) as Hok.
  rewrite (apiClient_pass adapter VITE_API_URL) by (by rewrite Hok).
  rewrite Hok. eexists. split; [done|].
  split; [by eval_state|]. split; [by eval_state|].
  apply events_since_app. by eval_state.
Qed.

(** ** The login page *)

Lemma or_else_nonempty v fallback : fallback ≠ "" → or_else v fallback ≠ "".
Proof.
  intros Hf. unfold or_else. destruct v as [x|]; [|done].
  by destruct (String.eqb_spec x "").
Qed.

Section LoginPage.

Variable setAuth :
  option (gmap string string) → option string → option string →
  AuthState → AuthState.

#[local] Abbreviation handleSubmit :=
  (Login.handleSubmit adapter VITE_API_URL JSON_stringify setAuth).

#[local] Abbreviation login_request := (Login.login_request JSON_stringify).
#[local] Abbreviation with_tokens := (@Login.with_tokens B).

Lemma handleSubmit_login_failed fuel page (s : Sys B) e s1 :
  apiClient fuel (login_request page) s = (Some (Rejected e), s1) →
  handleSubmit fuel page s =
  (Some {| Login.email := Login.email page;
           Login.password := Login.password page;
           Login.error := or_else (detail_of (AxiosThrown e)) "Login failed";
           Login.loading := false;
           Login.navigated := Login.navigated page |}, s1).
Proof.
  intros Hrun. unfold Login.handleSubmit, auth.login, response_data,
    apiClient_post, mbind, Eff_bind. cbn [fmap option_fmap option_map Login.email Login.password].
  fold (login_request page). by rewrite Hrun.
Qed.

Lemma handleSubmit_login_ok fuel page (s : Sys B) r tokens s1 :
  apiClient fuel (login_request page) s = (Some (Fulfilled r), s1) →
  data r = Some tokens →
  handleSubmit fuel page s =
  match apiClient fuel (get_config "/auth/me") (with_tokens tokens s1) with
  | (None, s2) => (None, s2)
  | (Some (Rejected e), s2) =>
      (Some {| Login.email := Login.email page;
               Login.password := Login.password page;
               Login.error := or_else (detail_of (AxiosThrown e)) "Login failed";
               Login.loading := false;
               Login.navigated := Login.navigated page |}, s2)
  | (Some (Fulfilled u), s2) =>
      (Some {| Login.email := Login.email page;
               Login.password := Login.password page;
               Login.error := "";
               Login.loading := false;
               Login.navigated := Some "/" |},
       {| store := setAuth (data u) (tokens !! "access_token")
                     (tokens !! "refresh_token") (store s2);
          href := href s2; backend := backend s2;
          trace := trace s2 ++
            [StoreSet (setAuth (data u) (tokens !! "access_token")
                         (tokens !! "refresh_token") (store s2))] |})
  end.
Proof.
  intros Hrun Hd. unfold Login.handleSubmit, auth.login, auth.getMe,
    response_data, apiClient_post, apiClient_get, mbind, Eff_bind.
  cbn [fmap option_fmap option_map Login.email Login.password].
  fold (login_request page). rewrite Hrun, Hd.
  unfold update_store, emit at 1. cbn [store href backend trace].
  fold (with_tokens tokens s1).
  destruct (apiClient fuel (get_config "/auth/me") (with_tokens tokens s1))
    as [[[u|e]|] s2]; done.
Qed.

(** X6. Submitting the login form always comes to an end with the
    loading flag cleared and the form fields as they were.  Either the
    page went to [/] and shows no error, or it stayed where it was and
    shows a non-empty error message. *)
Theorem login_submit_settles fuel page (s : Sys B) :
  (2 ≤ fuel)%nat →
  ∃ page' s',
    handleSubmit fuel page s = (Some page', s') ∧
    Login.loading page' = false ∧
    Login.email page' = Login.email page ∧
    Login.password page' = Login.password page ∧
    ((Login.navigated page' = Some "/" ∧ Login.error page' = "") ∨
     (Login.navigated page' = Login.navigated page ∧ Login.error page' ≠ "")).
Proof.
  intros Hfuel.
  assert (Hmsg : ∀ v, or_else v "Login failed" ≠ "")
    by (intros v; by apply or_else_nonempty).
  destruct (apiClient_trace adapter VITE_API_URL fuel (login_request page) s Hfuel)
    as (out & s1 & _ & Hrun & _).
  destruct out as [r|e].
  2:{ eexists _, _. split; [by apply handleSubmit_login_failed|].
      cbn. repeat split; try done. by right. }
  destruct (data r) as [tokens|] eqn:Hd.
  2:{ eexists _, _. split.
      - unfold Login.handleSubmit, auth.login, response_data, apiClient_post,
          mbind, Eff_bind.
        cbn [fmap option_fmap option_map Login.email Login.password].
        fold (login_request page). by rewrite Hrun, Hd.
      - cbn. repeat split; try done. by right. }
  rewrite (handleSubmit_login_ok _ _ _ _ tokens _ Hrun Hd).
  destruct (apiClient_trace adapter VITE_API_URL fuel (get_config "/auth/me")
              (with_tokens tokens s1) Hfuel) as (out2 & s2 & _ & Hrun2 & _).
  rewrite Hrun2. destruct out2 as [u|e].
  - eexists _, _. split; [done|]. cbn. repeat split; try done. by left.
  - eexists _, _. split; [done|]. cbn. repeat split; try done. by right.
Qed.

(** X7. After a login that returned an access token, the user is fetched
    with that token: the run starts with the login request, then the
    store update, then a GET [/auth/me] carrying
    [Authorization: Bearer <access_token>] of the login reply. *)
Theorem login_fetches_user_with_new_token fuel page (s : Sys B) r tokens a :
  (2 ≤ fuel)%nat →
  (adapter (backend s) (wire (store s) (login_request page))).2 = Replied r →
  validateStatus (status r) = true →
  data r = Some tokens →
  tokens !! "access_token" = Some a →
  a ≠ "" →
  let pair := {| accessToken := Some a;
                 refreshToken := tokens !! "refresh_token" |} in
  ∃ page' s' me rest,
    handleSubmit fuel page s = (Some page', s') ∧
    events_since s s' =
      Dispatched ViaApiClient (store s) (wire (store s) (login_request page)) ::
      StoreSet pair :: Dispatched ViaApiClient pair me :: rest ∧
    url me = "/auth/me" ∧
    method me = "get" ∧
    Authorization me = Some ("Bearer " +:+ a).
Proof.
  intros Hfuel Hr Hv Hd Ha Hne pair.
  destruct (fuel_two fuel Hfuel) as [n ->].
  pose proof (settled_Replied_ok adapter _ _ _ Hr Hv) as Hok.
  pose proof (apiClient_pass adapter VITE_API_URL (S n) (login_request page) s) as Hrun.
  rewrite Hok in Hrun. specialize (Hrun eq_refl).
  rewrite (handleSubmit_login_ok _ _ _ _ tokens _ Hrun Hd).
  set (s1 := with_tokens tokens (sent_from ViaApiClient
               (wire (store s) (login_request page)) s)).
  assert (Hpair : store s1 = pair) by (subst s1 pair; cbn; by rewrite Ha).
  destruct (apiClient_trace adapter VITE_API_URL (S (S n)) (get_config "/auth/me")
              s1 Hfuel) as (out2 & s2 & rest & Hrun2 & Htr).
  rewrite Hrun2. rewrite Hpair in Htr.
  assert (Hs1 : trace s1 = trace s ++
            [Dispatched ViaApiClient (store s) (wire (store s) (login_request page));
             StoreSet pair]).
  { subst s1 pair. unfold Login.with_tokens. rewrite Ha. by eval_state. }
  rewrite Hs1, <- app_assoc in Htr. cbn [app] in Htr.
  assert (Hme : url (wire pair (get_config "/auth/me")) = "/auth/me" ∧
                method (wire pair (get_config "/auth/me")) = "get" ∧
                Authorization (wire pair (get_config "/auth/me")) =
                  Some ("Bearer " +:+ a)).
  { destruct (same_call_wire VITE_API_URL pair (get_config "/auth/me"))
      as (Hu & Hm & _).
    split; [done|]. split; [done|].
    rewrite Authorization_wire; [done|].
    cbn. by destruct (String.eqb_spec a ""). }
  destruct out2 as [u|e].
  - eexists _, _, _, (rest ++ [_]). split; [done|]. split; [|done].
    apply events_since_app. cbn [trace]. rewrite Htr, <- app_assoc. done.
  - eexists _, _, _, rest. split; [done|]. split; [|done].
    by apply events_since_app.
Qed.

(** X8. The tokens a login put in the store stay there when fetching
    the user then fails with anything but a fresh 401 (an error status,
    a network error): the page shows the error and does not navigate,
    [setAuth] is not called, and the store keeps the pair of the login
    reply. *)
Theorem login_tokens_stay_when_getMe_fails fuel page (s : Sys B) r tokens e :
  let s1 := sent_from ViaApiClient (wire (store s) (login_request page)) s in
  let pair := {| accessToken := tokens !! "access_token";
                 refreshToken := tokens !! "refresh_token" |} in
  (adapter (backend s) (wire (store s) (login_request page))).2 = Replied r →
  validateStatus (status r) = true →
  data r = Some tokens →
  settled (wire pair (get_config "/auth/me")) s1 = Rejected e →
  fresh_401 e = false →
  ∃ page' s',
    handleSubmit (S fuel) page s = (Some page', s') ∧
    store s' = pair ∧
    Login.navigated page' = Login.navigated page ∧
    Login.error page' = or_else (detail_of (AxiosThrown e)) "Login failed" ∧
    count is_store_update (events_since s s') = 1%nat.
Proof.
  intros s1 pair Hr Hv Hd He Hf.
  pose proof (settled_Replied_ok adapter _ _ _ Hr Hv) as Hok.
  pose proof (apiClient_pass adapter VITE_API_URL fuel (login_request page) s) as Hrun.
  rewrite Hok in Hrun. specialize (Hrun eq_refl).
  rewrite (handleSubmit_login_ok _ _ _ _ tokens _ Hrun Hd). fold s1.
  assert (He' : settled (wire (store (with_tokens tokens s1))
                           (get_config "/auth/me")) (with_tokens tokens s1) =
                Rejected e) by exact He.
  rewrite (apiClient_pass adapter VITE_API_URL) by (by rewrite He').
  rewrite He'. eexists _, _. split; [done|].
  split; [by eval_state|]. split; [done|]. split; [done|].
  erewrite events_since_app.
  2:{ unfold Login.with_tokens. subst s1. by eval_state. }
  done.
Qed.

(** X9. A login the backend answers with a 401, on a page that holds no
    refresh token, goes through the logout path of the client: the
    request is sent once, no refresh call is made, the store is cleared
    and [window.location.href] is set to [/login], while the page shows
    the detail of the reply or [Login failed]. *)
Theorem rejected_login_redirects fuel page (s : Sys B) r401 :
  let sent := wire (store s) (login_request page) in
  (adapter (backend s) sent).2 = Replied r401 →
  status r401 = 401%Z →
  truthy (refreshToken (store s)) = false →
  ∃ page' s',
    handleSubmit (S fuel) page s = (Some page', s') ∧
    href s' = "/login" ∧
    store s' = {| accessToken := None; refreshToken := None |} ∧
    events_since s s' =
      [Dispatched ViaApiClient (store s) sent;
       StoreSet {| accessToken := None; refreshToken := None |};
       Navigated "/login"] ∧
    Login.error page' = or_else (d ← data r401; d !! "detail") "Login failed" ∧
    Login.loading page' = false ∧
    Login.navigated page' = Login.navigated page.
Proof.
  intros sent Hr Hst Hrt.
  destruct (settled_fresh_401 adapter VITE_API_URL (login_request page) s r401)
    as [He Hf]; [done..|].
  pose proof (run_no_refresh_token adapter VITE_API_URL fuel _ _ _ He Hf Hrt)
    as Hrun.
  eexists _, _. split; [by apply handleSubmit_login_failed|].
  split; [done|]. split; [done|]. split; [|done].
  apply events_since_app. by eval_state.
Qed.

End LoginPage.

(** ** The registration page *)

#[local] Abbreviation register_submit :=
  (Register.handleSubmit adapter VITE_API_URL JSON_stringify).

(** The request [register(...)] posts for the form as it stands. *)
#[local] Abbreviation register_request :=
  (Register.register_request JSON_stringify).

(** The two checks of lines 19-27. *)
Lemma register_submit_invalid fuel page (s : Sys B) :
  (Register.password page ≠ Register.confirmPassword page →
   register_submit fuel page s =
   (Some (Register.with_error "Passwords do not match" page), s)) ∧
  (Register.password page = Register.confirmPassword page →
   (String.length (Register.password page) < 8)%nat →
   register_submit fuel page s =
   (Some (Register.with_error "Password must be at least 8 characters" page),
    s)).
Proof.
  unfold Register.handleSubmit. cbn [Register.with_error Register.password
    Register.confirmPassword]. split.
  - intros Hne.
    destruct (String.eqb_spec (Register.password page)
                (Register.confirmPassword page)); done.
  - intros Heq Hlen. rewrite Heq, String.eqb_refl. cbn [negb].
    rewrite <- Heq. by destruct (Nat.ltb_spec (String.length (Register.password page)) 8); [|lia].
Qed.



(** X12. Submitting the registration form always comes to an end.
    Either the page went to [/login] with the success message, shows no
    error and is no longer loading, or it stayed where it was and shows
    a non-empty error message. *)
Theorem register_submit_settles fuel page (s : Sys B) :
  (2 ≤ fuel)%nat →
  ∃ page' s',
    register_submit fuel page s = (Some page', s') ∧
    ((Register.navigated page' =
        Some ("/login", "Registration successful! Please sign in.") ∧
      Register.error page' = "" ∧ Register.loading page' = false) ∨
     (Register.navigated page' = Register.navigated page ∧
      Register.error page' ≠ "" ∧
      (trace s' ≠ trace s → Register.loading page' = false))).
Proof.
  intros Hfuel.
  destruct (register_submit_invalid fuel page s) as [Hdiff Hshort].
  destruct (decide (Register.password page = Register.confirmPassword page))
    as [Heq | Hne].
  2:{ eexists _, _. split; [by apply Hdiff|]. right. by cbn. }
  destruct (Nat.ltb_spec (String.length (Register.password page)) 8) as [Hlt | Hge].
  { eexists _, _. split; [by apply Hshort|]. right. by cbn. }
  unfold Register.handleSubmit.
  cbn [Register.with_error Register.with_loading Register.password
       Register.confirmPassword].
  rewrite Heq, String.eqb_refl. cbn [negb]. rewrite <- Heq.
  destruct (Nat.ltb_spec (String.length (Register.password page)) 8); [lia|].
  unfold auth.register, response_data, apiClient_post, mbind, Eff_bind.
  cbn [fmap option_fmap option_map].
  change (post_config "/auth/register" _) with (register_request page).
  destruct (apiClient_trace adapter VITE_API_URL fuel (register_request page) s
              Hfuel) as (out & s1 & rest & Hrun1 & Htr).
  rewrite Hrun1. destruct out as [r|e].
  - eexists _, _. split; [done|]. left. by cbn.
  - eexists _, _. split; [done|]. right. cbn.
    split; [done|]. split; [|done]. by apply or_else_nonempty.
Qed.

End CallerProperties.

(** * Concrete runs *)

#[local] Abbreviation run := (apiClient scripted None).

(** C1 on a run: 401, refresh, retry that succeeds. *)
Lemma refresh_once_then_retry_once_witness :
  ∃ s',
    run 2 (get "/stocks")
      (session signed_in
         [Replied unauthorized; Replied refresh_ok; Replied stocks]) =
    (Some (Fulfilled stocks), s') ∧
    store s' = {| accessToken := Some "A2"; refreshToken := Some "R2" |} ∧
    count is_refresh_call (trace s') = 1%nat ∧
    count is_apiClient_send (trace s') = 2%nat.
Proof.
  destruct (refresh_once_then_retry_once scripted None 2 (get "/stocks")
              (session signed_in
                 [Replied unauthorized; Replied refresh_ok; Replied stocks])
              unauthorized)
    as (out & s' & Hrun & Hcount & Hok);
    [cbv; lia | reflexivity | reflexivity | reflexivity | reflexivity |].
  destruct (Hok refresh_ok new_tokens) as (Hst & Hev & Hsends & _ & Hout);
    [reflexivity | reflexivity | reflexivity |].
  exists s'. rewrite Hrun, Hout, Hst.
  split; [reflexivity|]. split; [reflexivity|].
  split; [exact Hcount | exact Hsends].
Defined.

(** C2 on a run: the retry after a refresh gets a 401 again; the caller
    receives that second 401 and only one refresh call was made. *)
Lemma at_most_one_refresh_per_request_witness :
  let s := session signed_in
             [Replied unauthorized; Replied refresh_ok; Replied unauthorized] in
  (∃ out,
     (run 2 (get "/stocks") s).1 = Some (Rejected out) ∧
     response out = Some unauthorized ∧
     _retry (config out) = true ∧
     Authorization (config out) = Some "Bearer A2") ∧
  (count is_refresh_call (trace (run 2 (get "/stocks") s).2) ≤ 1)%nat.
Proof.
  intros s.
  destruct (at_most_one_refresh_per_request scripted None 2 (get "/stocks") s)
    as (out & s' & _ & Hrun & Hcount & _); [lia|].
  split.
  - eexists. split; [reflexivity|]. split; [reflexivity|].
    split; reflexivity.
  - rewrite Hrun. exact Hcount.
Defined.

(** C3 on a run: the retry carries the token stored by the refresh. *)
Lemma bearer_matches_store_at_send_witness :
  Authorization
    (wire None {| accessToken := Some "A2"; refreshToken := Some "R2" |}
       (retry_request (Some "A2") (wire None signed_in (get "/stocks")))) =
  Some "Bearer A2".
Proof.
  apply (bearer_matches_store_at_send scripted None 2 (get "/stocks")
           (session signed_in
              [Replied unauthorized; Replied refresh_ok; Replied stocks])
           {| accessToken := Some "A2"; refreshToken := Some "R2" |} _ "A2").
  - lia.
  - apply (list_elem_of_lookup_2 _ 3). reflexivity.
  - reflexivity.
  - discriminate.
Defined.

(** C4 on a run: the refresh call is answered with a 500. *)
Lemma refresh_failure_logs_out_witness :
  ∃ out s',
    run 1 (get "/stocks")
      (session signed_in [Replied unauthorized; Replied server_error]) =
    (Some (Rejected out), s') ∧
    response out = Some unauthorized ∧
    store s' = {| accessToken := None; refreshToken := None |} ∧
    href s' = "/login".
Proof.
  destruct (refresh_failure_logs_out scripted None 0 (get "/stocks")
              (session signed_in [Replied unauthorized; Replied server_error])
              unauthorized
              {| config := refresh_request None (Some "R1");
                 response := Some server_error |})
    as (out & s' & Hrun & -> & _ & Hst & Hhref & _);
    [reflexivity | reflexivity | reflexivity | reflexivity | reflexivity |].
  eexists _, s'. split; [exact Hrun|]. split; [reflexivity|].
  split; [exact Hst | exact Hhref].
Defined.

(** C5 on a run: a 401 with an access token but no refresh token. *)
Lemma no_refresh_token_logs_out_witness :
  ∃ out s',
    run 1 (get "/stocks")
      (session {| accessToken := Some "A1"; refreshToken := None |}
         [Replied unauthorized; Replied refresh_ok]) =
    (Some (Rejected out), s') ∧
    response out = Some unauthorized ∧
    store s' = {| accessToken := None; refreshToken := None |} ∧
    href s' = "/login" ∧
    backend s' = [Replied refresh_ok].
Proof.
  destruct (no_refresh_token_logs_out scripted None 0 (get "/stocks")
              (session {| accessToken := Some "A1"; refreshToken := None |}
                 [Replied unauthorized; Replied refresh_ok])
              unauthorized)
    as (s' & Hrun & Hst & Hhref & _);
    [reflexivity | reflexivity | reflexivity | reflexivity |].
  eexists _, s'. split; [exact Hrun|]. split; [reflexivity|].
  split; [exact Hst|]. split; [exact Hhref|].
  injection Hrun as <-. reflexivity.
Defined.

(** C6 on a run: a 500 is rejected as it came. *)
Lemma pass_through_outside_recovery_witness :
  ∃ s',
    run 1 (get "/stocks") (session signed_in [Replied server_error]) =
    (Some (Rejected {| config := wire None signed_in (get "/stocks");
                       response := Some server_error |}), s') ∧
    trace s' =
      [Dispatched ViaApiClient signed_in (wire None signed_in (get "/stocks"))].
Proof.
  destruct (pass_through_outside_recovery scripted None 0 (get "/stocks")
              (session signed_in [Replied server_error]))
    as (s' & Hrun & Hev & _); [reflexivity|].
  exists s'. split; [exact Hrun | exact Hev].
Defined.

(** C7 on a run: the only store update of a successful refresh sets both
    tokens. *)
Lemma refresh_replaces_pair_in_one_update_witness :
  let s := session signed_in
             [Replied unauthorized; Replied refresh_ok; Replied stocks] in
  List.filter is_store_update (trace (run 2 (get "/stocks") s).2) =
  [StoreSet {| accessToken := Some "A2"; refreshToken := Some "R2" |}].
Proof.
  intros s.
  destruct (refresh_replaces_pair_in_one_update scripted None 2 (get "/stocks")
              s unauthorized refresh_ok new_tokens)
    as (out & s' & Hrun & Hupd & _);
    [lia | reflexivity | reflexivity | reflexivity | reflexivity
    | reflexivity | reflexivity | reflexivity |].
  rewrite Hrun. exact Hupd.
Defined.

(** C8 on a run: the refresh call is answered with a 401. *)
Lemma refresh_call_bypasses_interceptors_witness :
  let s := session signed_in [Replied unauthorized; Replied unauthorized] in
  (count is_refresh_call (trace (run 2 (get "/stocks") s).2) ≤ 1)%nat ∧
  trace (run 2 (get "/stocks") s).2 =
    [Dispatched ViaApiClient signed_in (wire None signed_in (get "/stocks"));
     Dispatched ViaAxios signed_in (refresh_request None (Some "R1"));
     StoreSet {| accessToken := None; refreshToken := None |};
     Navigated "/login"].
Proof.
  intros s.
  destruct (refresh_call_bypasses_interceptors scripted None 2 (get "/stocks") s)
    as (out & s' & Hrun & Hcount & _ & H401); [lia|].
  rewrite Hrun. split; [exact Hcount|].
  destruct (H401 {| config := wire None signed_in (get "/stocks");
                    response := Some unauthorized |} unauthorized)
    as [_ Hev];
    [reflexivity | reflexivity | reflexivity | reflexivity | reflexivity |].
  exact Hev.
Defined.

(** C9 on a run: a network error changes neither store nor location. *)
Lemma error_outside_refresh_keeps_state_witness :
  ∃ s',
    run 1 (get "/stocks") (session signed_in []) =
    (Some (Rejected {| config := wire None signed_in (get "/stocks");
                       response := None |}), s') ∧
    store s' = signed_in ∧
    href s' = "/".
Proof.
  destruct (error_outside_refresh_keeps_state scripted None 0 (get "/stocks")
              (session signed_in [])
              {| config := wire None signed_in (get "/stocks");
                 response := None |})
    as (s' & Hrun & Hst & Hhref & _); [reflexivity | reflexivity |].
  exists s'. split; [exact Hrun|]. split; [exact Hst | exact Hhref].
Defined.

(** C10 on a run: signed out, the request leaves without the header. *)
Lemma no_token_request_untouched_witness :
  let anonymous := {| accessToken := None; refreshToken := None |} in
  ∃ rest,
    trace (run 2 (get "/stocks") (session anonymous [Replied stocks])).2 =
    Dispatched ViaApiClient anonymous (mergeConfig None (get "/stocks")) :: rest ∧
    Authorization (mergeConfig None (get "/stocks")) = None.
Proof.
  intros anonymous.
  destruct (no_token_request_untouched scripted None 2 (get "/stocks")
              (session anonymous [Replied stocks]))
    as (_ & [rest Hev] & _ & Hnone); [lia | reflexivity |].
  exists rest. split; [exact Hev|]. apply Hnone. reflexivity.
Defined.

(** C10 as stated fails.  The store holds no access token when the retry
    is sent (the refresh reply had no [access_token]), yet the retry
    leaves with the header line 50 wrote: [Bearer undefined]. *)
Lemma bearer_undefined_is_sent :
  ¬ (∀ (fuel : nat) (c : Config) (s : Sys (list NetResult)) st sent,
       (2 ≤ fuel)%nat →
       Dispatched ViaApiClient st sent ∈ events_since s (run fuel c s).2 →
       truthy (accessToken st) = false →
       Authorization sent = None).
Proof.
  intros H.
  specialize (H 2%nat (get "/stocks")
    (session signed_in
       [Replied unauthorized; Replied refresh_without_access; Replied stocks])
    {| accessToken := None; refreshToken := Some "R2" |}
    (wire None {| accessToken := None; refreshToken := Some "R2" |}
       (retry_request None (wire None signed_in (get "/stocks"))))).
  assert (Hsent :
    Authorization
      (wire None {| accessToken := None; refreshToken := Some "R2" |}
         (retry_request None (wire None signed_in (get "/stocks")))) =
    Some "Bearer undefined") by reflexivity.
  rewrite H in Hsent; [discriminate | lia | | reflexivity].
  apply (list_elem_of_lookup_2 _ 3). reflexivity.
Qed.

(** The same with a header the caller set itself: the interceptor does
    not remove it. *)
Example caller_header_is_kept :
  let anonymous := {| accessToken := None; refreshToken := None |} in
  let c := set_headers (Some {[ "Authorization" := "Bearer stale" ]})
             (get "/stocks") in
  Authorization (wire None anonymous c) = Some "Bearer stale".
Proof. reflexivity. Qed.

(** A 2xx refresh reply without a body: reading the tokens off it
    throws, which the [catch] of line 53 turns into the logout path. *)
Example refresh_without_body_logs_out :
  let s := session signed_in
             [Replied unauthorized; Replied {| status := 200; data := None |}] in
  ∃ out,
    (run 2 (get "/stocks") s).1 = Some (Rejected out) ∧
    response out = Some unauthorized ∧
    store (run 2 (get "/stocks") s).2 =
      {| accessToken := None; refreshToken := None |} ∧
    href (run 2 (get "/stocks") s).2 = "/login".
Proof. eexists. repeat split; reflexivity. Qed.

(** * Concrete runs of the callers *)


(** X2 on a run: the refresh reply is a 200 with a null body. *)
Lemma refresh_without_body_is_a_failure_witness :
  ∃ s',
    run 1 (get "/stocks")
      (session signed_in
         [Replied unauthorized; Replied {| status := 200; data := None |};
          Replied stocks]) =
    (Some (Rejected {| config := set_retry (wire None signed_in (get "/stocks"));
                       response := Some unauthorized |}), s') ∧
    store s' = signed_out ∧
    backend s' = [Replied stocks].
Proof.
  destruct (refresh_without_body_is_a_failure scripted None 0 (get "/stocks")
              (session signed_in
                 [Replied unauthorized; Replied {| status := 200; data := None |};
                  Replied stocks])
              unauthorized {| status := 200; data := None |})
    as (s' & Hrun & Hst & _);
    [reflexivity | reflexivity | reflexivity | reflexivity | reflexivity
    | reflexivity | reflexivity |].
  exists s'. split; [exact Hrun|]. split; [exact Hst|].
  injection Hrun as <-. reflexivity.
Defined.

(** X3 on a run that ends in a logout. *)
Lemma navigation_means_logout_and_401_witness :
  let s := session signed_in [Replied unauthorized; Replied server_error] in
  href (run 2 (get "/stocks") s).2 = "/login" ∧
  store (run 2 (get "/stocks") s).2 = signed_out.
Proof.
  intros s.
  destruct (navigation_means_logout_and_401 scripted None 2 (get "/stocks") s)
    as (out & s' & Hrun & Hnav & _); [lia|].
  assert (Hs : (run 2 (get "/stocks") s).2 = s') by (by rewrite Hrun).
  rewrite Hs.
  destruct (Hnav "/login") as (_ & Hhref & Hst & _).
  { rewrite <- Hs. apply (list_elem_of_lookup_2 _ 3). reflexivity. }
  split; [exact Hhref | exact Hst].
Defined.

(** X4 on [getStock('PNNY')] answered at once. *)
Lemma resolved_data_answers_the_call_witness :
  let s := session signed_in [Replied stocks] in
  let res := stocks.getStock scripted None 2 "PNNY" s in
  res.1 = Some (Resolved (data stocks)) ∧
  ∃ st sent,
    last (trace res.2) = Some (Dispatched ViaApiClient st sent) ∧
    url sent = "/stocks/PNNY".
Proof.
  intros s res. split; [reflexivity|].
  destruct (resolved_data_answers_the_call scripted None 2
              (get_config "/stocks/PNNY") s (data stocks) res.2)
    as (st & sent & b & r & Hlast & (Hurl & _) & _);
    [lia | reflexivity |].
  exists st, sent. split; [exact Hlast | exact Hurl].
Defined.

(** X5 on a run: the backend accepts the logout. *)
Lemma api_logout_keeps_the_tokens_witness :
  ∃ s',
    auth.logout scripted None stringify 1
      (session signed_in [Replied {| status := 200; data := None |}]) =
    (Some (Resolved tt), s') ∧
    store s' = signed_in.
Proof.
  destruct (api_logout_keeps_the_tokens scripted None stringify 0
              (session signed_in [Replied {| status := 200; data := None |}])
              {| status := 200; data := None |})
    as (s' & Hrun & Hst & _); [reflexivity | reflexivity |].
  exists s'. split; [exact Hrun | exact Hst].
Defined.

(** X6 on a run: login and the fetch of the user both succeed. *)
Lemma login_submit_settles_witness :
  let page := {| Login.email := "pat@example.com"; Login.password := "hunter22";
                 Login.error := "old"; Login.loading := false;
                 Login.navigated := None |} in
  ∃ page' s',
    Login.handleSubmit scripted None stringify keep_pair 2 page
      (session signed_out [Replied refresh_ok; Replied me]) =
    (Some page', s') ∧
    Login.loading page' = false.
Proof.
  intros page.
  destruct (login_submit_settles scripted None stringify keep_pair 2 page
              (session signed_out [Replied refresh_ok; Replied me]))
    as (page' & s' & Hrun & Hl & _); [lia|].
  exists page', s'. split; [exact Hrun | exact Hl].
Defined.

(** X7 on a run: login answers with the tokens [A2]/[R2]. *)
Lemma login_fetches_user_with_new_token_witness :
  let page := {| Login.email := "pat@example.com"; Login.password := "hunter22";
                 Login.error := ""; Login.loading := false;
                 Login.navigated := None |} in
  ∃ page' s' rq rest,
    Login.handleSubmit scripted None stringify keep_pair 2 page
      (session signed_out [Replied refresh_ok; Replied me]) =
    (Some page', s') ∧
    trace s' =
      Dispatched ViaApiClient signed_out
        (wire None signed_out (Login.login_request stringify page)) ::
      StoreSet {| accessToken := Some "A2"; refreshToken := Some "R2" |} ::
      Dispatched ViaApiClient
        {| accessToken := Some "A2"; refreshToken := Some "R2" |} rq :: rest ∧
    Authorization rq = Some "Bearer A2".
Proof.
  intros page.
  destruct (login_fetches_user_with_new_token scripted None stringify keep_pair
              2 page (session signed_out [Replied refresh_ok; Replied me])
              refresh_ok new_tokens "A2")
    as (page' & s' & rq & rest & Hrun & Hev & _ & _ & Hauth);
    [lia | reflexivity | reflexivity | reflexivity | reflexivity | discriminate |].
  exists page', s', rq, rest. split; [exact Hrun|].
  split; [exact Hev | exact Hauth].
Defined.

(** X8 on a run: the login succeeds, fetching the user fails with 500. *)
Lemma login_tokens_stay_when_getMe_fails_witness :
  let page := {| Login.email := "pat@example.com"; Login.password := "hunter22";
                 Login.error := ""; Login.loading := false;
                 Login.navigated := None |} in
  ∃ page' s',
    Login.handleSubmit scripted None stringify keep_pair 1 page
      (session signed_out [Replied refresh_ok; Replied server_error]) =
    (Some page', s') ∧
    store s' = {| accessToken := Some "A2"; refreshToken := Some "R2" |} ∧
    Login.error page' = "Login failed" ∧
    Login.navigated page' = None.
Proof.
  intros page.
  destruct (login_tokens_stay_when_getMe_fails scripted None stringify keep_pair
              0 page
              (session signed_out [Replied refresh_ok; Replied server_error])
              refresh_ok new_tokens
              {| config := wire None
                             {| accessToken := Some "A2"; refreshToken := Some "R2" |}
                             (get_config "/auth/me");
                 response := Some server_error |})
    as (page' & s' & Hrun & Hst & Hnav & Herr & _);
    [reflexivity | reflexivity | reflexivity | reflexivity | reflexivity |].
  exists page', s'. split; [exact Hrun|]. split; [exact Hst|].
  split; [exact Herr | exact Hnav].
Defined.

(** X9 on a run: wrong password on a fresh page. *)
Lemma rejected_login_redirects_witness :
  let page := {| Login.email := "pat@example.com"; Login.password := "wrong";
                 Login.error := ""; Login.loading := false;
                 Login.navigated := None |} in
  ∃ page' s',
    Login.handleSubmit scripted None stringify keep_pair 1 page
      (session signed_out [Replied bad_credentials]) =
    (Some page', s') ∧
    href s' = "/login" ∧
    Login.error page' = "Incorrect email or password".
Proof.
  intros page.
  destruct (rejected_login_redirects scripted None stringify keep_pair 0 page
              (session signed_out [Replied bad_credentials]) bad_credentials)
    as (page' & s' & Hrun & Hhref & _ & _ & Herr & _);
    [reflexivity | reflexivity | reflexivity |].
  exists page', s'. split; [exact Hrun|]. split; [exact Hhref | exact Herr].
Defined.



(** X12 on the same form. *)
Lemma register_submit_settles_witness :
  let page := {| Register.email := "pat@example.com";
                 Register.password := "hunter22";
                 Register.confirmPassword := "hunter22";
                 Register.fullName := "Pat"; Register.error := "";
                 Register.loading := false; Register.navigated := None |} in
  ∃ page' s',
    Register.handleSubmit scripted None stringify 2 page
      (session signed_out [Replied me]) = (Some page', s').
Proof.
  intros page.
  destruct (register_submit_settles scripted None stringify 2 page
              (session signed_out [Replied me]))
    as (page' & s' & Hrun & _); [lia|].
  exists page', s'. exact Hrun.
Defined.

(** X13 to X16 on page 2 of 3, 25 rows a page, 60 rows in all. *)
Lemma pagination_stays_in_range_witness :
  (1 ≤ Dashboard.previous 2 ≤ 3)%Z ∧ (1 ≤ Dashboard.next 3 2 ≤ 3)%Z.
Proof.
  apply (pagination_stays_in_range 3 2); [by vm_compute | lia].
Defined.

Lemma disabled_buttons_are_the_noops_witness :
  (Dashboard.previous_disabled 1 = true ↔ Dashboard.previous 1 = 1%Z) ∧
  (Dashboard.next_disabled 3 1 = true ↔ Dashboard.next 3 1 = 1%Z).
Proof.
  apply (disabled_buttons_are_the_noops 3 1); [by vm_compute | lia].
Defined.

Lemma previous_next_round_trip_witness :
  Dashboard.previous (Dashboard.next 3 2) = 2%Z.
Proof.
  apply (previous_next_round_trip 3 2); [by vm_compute | lia | reflexivity].
Defined.

Lemma showing_range_witness :
  (1 ≤ Dashboard.showing_first 2 25 ≤ Dashboard.showing_last 2 25 60)%Z.
Proof.
  apply (showing_range 2 25 60); [lia | lia | by vm_compute | by vm_compute | lia].
Defined.

(** X18 and X19 on [strong_buy]. *)
Lemma formatSignal_title_case_witness :
  formatSignal (Some "strong_buy") = "Strong Buy".
Proof.
  apply (formatSignal_title_case "strong" "buy"); [reflexivity | reflexivity | discriminate].
Defined.

Lemma formatSignal_replaces_one_underscore_witness :
  underscores (formatSignal (Some "strong_buy_now")) = 1%nat.
Proof.
  apply (formatSignal_replaces_one_underscore "strong_buy_now"). discriminate.
Defined.

